(** * Multi-agent document RAG assistant: the agent pipeline of [agents.py]
      and the multi-document coordinator of [chat.py]

    A shallow embedding of the retrieval tool, the four text tools, the four
    LangGraph agent nodes, the two executors ([LangGraphMultiAgent.kickoff]
    and [SimpleMultiAgent.kickoff]) and [process_multi_document_query].

    Conventions.
    - A Python [str] is a [string] holding its UTF-8 bytes.  Equality,
      concatenation, emptiness ([not s]) and the substring test ([a in s])
      on code points agree with the same operations on UTF-8 bytes.
    - An exception is carried by [Raise msg], where [msg] is [str(e)].
    - Streamlit calls ([st.info], [st.error], [st.spinner], ...) only draw
      widgets; they are left out.
    - The external collaborators (the document retrievers and the Gemini
      model) are functions over an abstract collaborator state [W], so that
      they may answer differently from call to call. *)

From Stdlib Require Import Ascii.
From stdpp Require Import base option list gmap strings pretty.

(** ** Python string primitives *)

Module PyStr.

(** The line feed written [\n] in the Python literals. *)
Definition LF : string := String "010"%char EmptyString.

(** [hay.startswith(needle)]. *)
Fixpoint startswith (needle hay : string) : bool :=
  match needle, hay with
  | EmptyString, _ => true
  | String a n, String b h => if decide (a = b) then startswith n h else false
  | String _ _, EmptyString => false
  end.

(** [needle in hay]: [needle] occurs in [hay] as a contiguous substring. *)
Fixpoint contains (needle hay : string) : bool :=
  startswith needle hay ||
  match hay with
  | EmptyString => false
  | String _ h => contains needle h
  end.

(** [s * n]. *)
Fixpoint repeat (s : string) (n : nat) : string :=
  match n with
  | O => ""
  | S n => s +:+ repeat s n
  end.

(** [sep.join(parts)]. *)
Fixpoint join (sep : string) (parts : list string) : string :=
  match parts with
  | [] => ""
  | [p] => p
  | p :: rest => p +:+ sep +:+ join sep rest
  end.

(** Truthiness of a string: [bool(s)]. *)
Definition truthy (s : string) : bool :=
  match s with
  | EmptyString => false
  | String _ _ => true
  end.

(** [a or b] on strings. *)
Definition or (a b : string) : string := if truthy a then a else b.

End PyStr.

Import PyStr.

(** ** Outcomes and the state-and-exception monad *)

Inductive Outcome (A : Type) : Type :=
| Ok (a : A)
| Raise (msg : string).
Arguments Ok {A} a.
Arguments Raise {A} msg.

(** A computation over a state [S] that returns or raises; the state reached
    before a [raise] is kept (Python does not roll back). *)
Definition SE (S A : Type) : Type := S -> Outcome A * S.

#[global] Instance SE_ret {S} : MRet (SE S) := fun A a s => (Ok a, s).

#[global] Instance SE_bind {S} : MBind (SE S) := fun A B k m s =>
  match m s with
  | (Ok a, s') => k a s'
  | (Raise e, s') => (Raise e, s')
  end.

Definition raise {S A} (msg : string) : SE S A := fun s => (Raise msg, s).

(** [try: m  except Exception as e: handler(str(e))]. *)
Definition try_catch {S A} (m : SE S A) (handler : string -> SE S A) : SE S A :=
  fun s =>
    match m s with
    | (Ok a, s') => (Ok a, s')
    | (Raise e, s') => handler e s'
    end.

(** A computation returns (does not raise) from state [s]. *)
Definition returns {S A} (m : SE S A) (s : S) : Prop :=
  exists a s', m s = (Ok a, s').

(** ** String constants of [agents.py] *)

(** Text of the summarizer prompt before [{text}]. *)
Definition summary_prompt_head : string :=
  "As an expert content summarizer, please provide a comprehensive summary of the following text that preserves all critical information while being concise and well-organized:

TEXT TO SUMMARIZE:
".

(** Text of the summarizer prompt after [{text}]. *)
Definition summary_prompt_tail : string :=
  "

SUMMARY REQUIREMENTS:
- Preserve all key facts, data points, and concepts
- Maintain context and relationships between ideas
- Highlight the most important information
- Ensure technical accuracy
- Organize in a logical, readable structure

COMPREHENSIVE SUMMARY:".

(** Text of the analyst prompt before [{text}]. *)
Definition analysis_prompt_head : string :=
  "As a senior document analyst, perform a comprehensive analysis of the following content:

CONTENT FOR ANALYSIS:
".

(** Text of the analyst prompt after [{text}]. *)
Definition analysis_prompt_tail : string :=
  "

ANALYSIS REQUIREMENTS:
1. Identify and categorize main themes and key concepts
2. Extract and highlight important data points, statistics, and metrics
3. Analyze methodologies, approaches, or frameworks used
4. Identify relationships, patterns, and connections between elements
5. Note significant findings, conclusions, or recommendations
6. Point out any gaps, contradictions, or areas needing clarification
7. Provide insights on practical applications or implications

DETAILED ANALYSIS REPORT:".

(** Text the formatter puts before [{content}]. *)
Definition formatter_head : string :=
  "✨ PROFESSIONALLY FORMATTED RESPONSE:

".

(** Text the formatter puts after [{content}]. *)
Definition formatter_tail : string :=
  "

🎯 FORMATTING FEATURES APPLIED:
- Clear hierarchical structure with sections
- Professional typography and spacing
- Consistent formatting throughout
- Enhanced readability with bullet points
- Professional presentation standards
- Optimized for both technical and non-technical audiences".

(** Text the citation manager puts before [{content}]. *)
Definition citation_head : string :=
  "✅ CITATION MANAGEMENT APPLIED:

".

(** Text the citation manager puts after [{content}]. *)
Definition citation_tail : string :=
  "

📚 SOURCES ATTRIBUTED:
- All document references properly cited
- Source files clearly referenced
- Academic citation standards applied
- Cross-references maintained for verification".

(** ** String constants of [chat.py] *)

(** The f-string prompt of [display_enhanced_fallback_single]. *)
Definition fallback_prompt (doc_name query_ context : string) : string :=
  "Based ONLY on the content from " +:+
  doc_name +:+
  ", provide a comprehensive answer to the user's question.

User Question: " +:+
  query_ +:+
  "

Document: " +:+
  doc_name +:+
  "
Content:
" +:+
  context +:+
  "

Please provide a detailed answer that includes:

1. **DOCUMENT-SPECIFIC OVERVIEW**: Clear overview addressing the query specifically for " +:+
  doc_name +:+
  "
2. **KEY CONCEPTS FROM THIS DOCUMENT**: Detailed explanation of main concepts and ideas from " +:+
  doc_name +:+
  "
3. **SPECIFIC DETAILS**: Specific examples, data points, and details ONLY from " +:+
  doc_name +:+
  "
4. **STRUCTURED ORGANIZATION**: Clear sections with headings and bullet points
5. **COMPREHENSIVE COVERAGE**: Thorough coverage of all relevant aspects from this document

IMPORTANT: Only use information from " +:+
  doc_name +:+
  ". Do not include information from other documents.

Detailed Answer for " +:+
  doc_name +:+
  ":".

(** The text [DocumentRetrieverTool.run] returns for an empty result. *)
Definition empty_result_marker : string :=
  "No relevant documents found for the query.".

(** ** Retrieved chunks *)

(** A LangChain document: [doc.page_content] and the [doc.metadata] dict. *)
Record Document : Type := {
  page_content : string;
  metadata : gmap string string
}.

Section Pipeline.

(** State of the external collaborators. *)
Variable W : Type.

(** The generation collaborator: [genai.configure(api_key=...)],
    [genai.GenerativeModel('gemini-2.0-flash')], [model.generate_content(prompt)]
    and the read of [response.text], as one call from the API key and the
    prompt; any of the four may raise. *)
Variable genai_generate : string -> string -> W -> Outcome string * W.

(** [str.upper], which follows the Unicode case tables. *)
Variable str_upper : string -> string.

(** The module flag set by the guarded [from langgraph.graph import ...]. *)
Variable LANGGRAPH_AVAILABLE : bool.

(** A search capability of a retriever object. *)
Definition Search : Type := string -> W -> Outcome (list Document) * W.

(** A retriever object, seen through [hasattr]: each of the three
    capabilities is present ([Some]) or absent ([None]). *)
Record Retriever : Type := {
  get_relevant_documents : option Search;
  invoke : option Search;
  call : option Search
}.

(** The world the tools act on: the collaborators' state and, as ghost
    state, the prompts passed to [generate_content] so far. *)
Record Ext : Type := {
  coll : W;
  gen_calls : list string
}.

(** Effects of tools and of the sequential executor. *)
Definition Eff (A : Type) : Type := SE Ext A.

(** Run a collaborator call on the collaborators' state. *)
Definition on_coll {A} (f : W -> Outcome A * W) : Eff A :=
  fun x =>
    let '(r, w') := f (coll x) in
    (r, {| coll := w'; gen_calls := gen_calls x |}).

(** [model.generate_content(prompt)] with the key configured, recorded in
    [gen_calls]. *)
Definition generate_content (api_key prompt : string) : Eff string :=
  fun x =>
    let '(r, w') := genai_generate api_key prompt (coll x) in
    (r, {| coll := w'; gen_calls := gen_calls x ++ [prompt] |}).

(** *** DocumentRetrieverTool *)

(** The body of [for i, doc in enumerate(docs, 1)], from index [i] on. *)
Fixpoint render_documents (i : nat) (docs : list Document) (result : string)
  : string :=
  match docs with
  | [] => result
  | doc :: rest =>
      let source := default "Unknown" (metadata doc !! "source_file") in
      let file_type := default "Unknown" (metadata doc !! "file_format") in
      let result := result +:+ ("📄 DOCUMENT " +:+ pretty i +:+ " - " +:+ source
                       +:+ " (" +:+ str_upper file_type +:+ ")" +:+ LF) in
      let result := result +:+ ("Content: " +:+ page_content doc +:+ LF) in
      let result := result +:+ (repeat "─" 80 +:+ LF +:+ LF) in
      render_documents (S i) rest result
  end.

Definition DocumentRetrieverTool_run (retriever : Retriever) (query : string)
  : Eff string :=
  let render (docs : list Document) : Eff string :=
    match docs with
    | [] => mret empty_result_marker
    | _ => mret (render_documents 1 docs ("🔍 RETRIEVED DOCUMENTS:" +:+ LF +:+ LF))
    end in
  try_catch
    (match get_relevant_documents retriever with
     | Some f => docs ← on_coll (f query); render docs
     | None =>
         match invoke retriever with
         | Some f => docs ← on_coll (f query); render docs
         | None =>
             match call retriever with
             | Some f => docs ← on_coll (f query); render docs
             | None => mret "Error: Retriever object has no compatible method"
             end
         end
     end)
    (fun e => mret ("Error retrieving documents: " +:+ e)).

(** *** ContentSummarizerTool and DocumentAnalyzerTool *)

Definition ContentSummarizerTool_run (api_key text : string) : Eff string :=
  try_catch
    (let prompt := summary_prompt_head +:+ text +:+ summary_prompt_tail in
     response ← generate_content api_key prompt;
     mret ("📝 SUMMARY:" +:+ LF +:+ response))
    (fun e => mret ("Error generating summary: " +:+ e)).

Definition DocumentAnalyzerTool_run (api_key text : string) : Eff string :=
  try_catch
    (let prompt := analysis_prompt_head +:+ text +:+ analysis_prompt_tail in
     response ← generate_content api_key prompt;
     mret ("🔍 ANALYSIS RESULTS:" +:+ LF +:+ response))
    (fun e => mret ("Error analyzing content: " +:+ e)).

(** *** ContentFormatterTool and CitationManagerTool *)

Definition ContentFormatterTool_run (content : string) : string :=
  if negb (truthy content) || contains "Error" content then content
  else formatter_head +:+ content +:+ formatter_tail.

Definition CitationManagerTool_run (content : string) : string :=
  if negb (truthy content) || contains "Error" content then content
  else citation_head +:+ content +:+ citation_tail.

(** ** The agent state and the store of state dicts *)

(** A tool object, seen through its [run] method. *)
Definition Tool : Type := string -> Eff string.

(** [AgentState], a total [TypedDict]: every key is present. *)
Record AgentState : Type := {
  query : string;
  retrieved_documents : string;
  summarized_content : string;
  analysis_results : string;
  final_output : string;
  current_step : string;
  error : string;
  tools : gmap string Tool
}.

(** [{**state, "retrieved_documents": v}] and its four siblings. *)
Definition set_retrieved_documents (v : string) (st : AgentState) : AgentState :=
  {| query := query st; retrieved_documents := v;
     summarized_content := summarized_content st;
     analysis_results := analysis_results st; final_output := final_output st;
     current_step := current_step st; error := error st; tools := tools st |}.

Definition set_summarized_content (v : string) (st : AgentState) : AgentState :=
  {| query := query st; retrieved_documents := retrieved_documents st;
     summarized_content := v;
     analysis_results := analysis_results st; final_output := final_output st;
     current_step := current_step st; error := error st; tools := tools st |}.

Definition set_analysis_results (v : string) (st : AgentState) : AgentState :=
  {| query := query st; retrieved_documents := retrieved_documents st;
     summarized_content := summarized_content st;
     analysis_results := v; final_output := final_output st;
     current_step := current_step st; error := error st; tools := tools st |}.

Definition set_final_output (v : string) (st : AgentState) : AgentState :=
  {| query := query st; retrieved_documents := retrieved_documents st;
     summarized_content := summarized_content st;
     analysis_results := analysis_results st; final_output := v;
     current_step := current_step st; error := error st; tools := tools st |}.

Definition set_current_step (v : string) (st : AgentState) : AgentState :=
  {| query := query st; retrieved_documents := retrieved_documents st;
     summarized_content := summarized_content st;
     analysis_results := analysis_results st; final_output := final_output st;
     current_step := v; error := error st; tools := tools st |}.

(** The state dicts are objects: a node receives a reference into the store
    and returns a reference.  A reference is an index; allocation appends. *)
Definition Store : Type := list AgentState.

(** Effects of the agent nodes and of the graph executor. *)
Definition M (A : Type) : Type := SE (Store * Ext) A.

(** A tool call inside a node: it sees strings only, not the store. *)
Definition lift {A} (m : Eff A) : M A :=
  fun '(h, x) => let '(r, x') := m x in (r, (h, x')).

(** [state.get(key, ...)] and [state[key]]: read a field of the dict. *)
Definition state_get {A} (state : nat) (field : AgentState -> A) : M A :=
  fun '(h, x) =>
    match h !! state with
    | Some st => (Ok (field st), (h, x))
    | None => (Raise "dangling state reference", (h, x))
    end.

(** A dict display [{...}]: a new dict object. *)
Definition state_new (st : AgentState) : M nat :=
  fun '(h, x) => (Ok (length h), (h ++ [st], x)).

(** [{**state, k1: v1, ...}]: read the dict and build a new one from it. *)
Definition state_copy (state : nat) (update : AgentState -> AgentState) : M nat :=
  st ← state_get state id; state_new (update st).

(** ** The agent nodes *)

Definition retriever_agent (state : nat) : M nat :=
  try_catch
    (tools_ ← state_get state tools;
     match tools_ !! "retriever" with
     | Some retriever_tool =>
         q ← state_get state query;
         retrieved_content ← lift (retriever_tool q);
         state_copy state (fun st =>
           set_current_step "retrieval_complete"
             (set_retrieved_documents retrieved_content st))
     | None =>
         state_copy state (fun st =>
           set_current_step "retrieval_complete"
             (set_retrieved_documents "Retriever tool not available" st))
     end)
    (fun e =>
       state_copy state (fun st =>
         set_current_step "retrieval_complete"
           (set_retrieved_documents ("Error in retrieval: " +:+ e) st))).

Definition summarizer_agent (state : nat) : M nat :=
  try_catch
    (tools_ ← state_get state tools;
     retrieved ← state_get state retrieved_documents;
     match tools_ !! "summarizer" with
     | Some summarizer_tool =>
         if truthy retrieved then
           summarized_content_ ←
             (if negb (contains "Error" retrieved)
                 && negb (contains "No relevant documents" retrieved)
              then lift (summarizer_tool retrieved)
              else mret retrieved);
           state_copy state (fun st =>
             set_current_step "summarization_complete"
               (set_summarized_content summarized_content_ st))
         else
           state_copy state (fun st =>
             set_current_step "summarization_complete"
               (set_summarized_content "Summarizer tool not available" st))
     | None =>
         state_copy state (fun st =>
           set_current_step "summarization_complete"
             (set_summarized_content "Summarizer tool not available" st))
     end)
    (fun e =>
       state_copy state (fun st =>
         set_current_step "summarization_complete"
           (set_summarized_content ("Error in summarization: " +:+ e) st))).

Definition analyst_agent (state : nat) : M nat :=
  try_catch
    (tools_ ← state_get state tools;
     summarized ← state_get state summarized_content;
     match tools_ !! "analyzer" with
     | Some analyzer_tool =>
         if truthy summarized then
           analysis_results_ ←
             (if negb (contains "Error" summarized)
                 && negb (contains "No relevant documents" summarized)
              then lift (analyzer_tool summarized)
              else mret summarized);
           state_copy state (fun st =>
             set_current_step "analysis_complete"
               (set_analysis_results analysis_results_ st))
         else
           state_copy state (fun st =>
             set_current_step "analysis_complete"
               (set_analysis_results "Analyzer tool not available" st))
     | None =>
         state_copy state (fun st =>
           set_current_step "analysis_complete"
             (set_analysis_results "Analyzer tool not available" st))
     end)
    (fun e =>
       state_copy state (fun st =>
         set_current_step "analysis_complete"
           (set_analysis_results ("Error in analysis: " +:+ e) st))).

(** [state.get('analysis_results', '') or state.get('summarized_content', '')
    or state.get('retrieved_documents', '')]. *)
Definition content_to_format (st : AgentState) : string :=
  PyStr.or (analysis_results st)
    (PyStr.or (summarized_content st) (retrieved_documents st)).

Definition quality_agent (state : nat) : M nat :=
  try_catch
    (tools_ ← state_get state tools;
     content ← state_get state content_to_format;
     final_output_ ←
       match tools_ !! "formatter" with
       | Some formatter_tool =>
           if truthy content && negb (contains "Error" content)
              && negb (contains "No relevant documents" content)
           then
             formatted_content ← lift (formatter_tool content);
             match tools_ !! "citations" with
             | Some citation_tool => lift (citation_tool formatted_content)
             | None => mret formatted_content
             end
           else mret content
       | None => mret content
       end;
     state_copy state (fun st =>
       set_current_step "complete" (set_final_output final_output_ st)))
    (fun e =>
       state_copy state (fun st =>
         set_current_step "complete"
           (set_final_output ("Error in quality assurance: " +:+ e) st))).

(** ** The two executors *)

(** The [tools] dict built by [create_langgraph_multiagent] and by
    [SimpleMultiAgent.__init__]. *)
Definition make_tools (api_key : string) (retriever : Retriever)
  : gmap string Tool :=
  <["retriever" := DocumentRetrieverTool_run retriever]>
  (<["summarizer" := ContentSummarizerTool_run api_key]>
  (<["analyzer" := DocumentAnalyzerTool_run api_key]>
  (<["formatter" := fun content => mret (ContentFormatterTool_run content)]>
  (<["citations" := fun content => mret (CitationManagerTool_run content)]>
   ∅)))).

(** [graph.invoke(initial_state)] for the compiled workflow: entry point
    [retriever], then the unconditional edges [retriever -> summarizer ->
    analyst -> quality_assurance -> END]; each node is handed the state the
    previous one returned. *)
Definition graph_invoke (initial_state : nat) : M nat :=
  s1 ← retriever_agent initial_state;
  s2 ← summarizer_agent s1;
  s3 ← analyst_agent s2;
  quality_agent s3.

Definition LangGraphMultiAgent_kickoff (self_tools : gmap string Tool)
    (inputs : gmap string string) : M string :=
  let query_ := default "" (inputs !! "query") in
  initial_state ← state_new
    {| query := query_; retrieved_documents := ""; summarized_content := "";
       analysis_results := ""; final_output := ""; current_step := "started";
       error := ""; tools := self_tools |};
  try_catch
    (final_state ← graph_invoke initial_state;
     state_get final_state final_output)
    (fun e => mret ("Error in multi-agent execution: " +:+ e)).

(** [d[key]] on the tools dict: [KeyError] when the key is missing. *)
Definition tools_index (d : gmap string Tool) (key : string) : Eff Tool :=
  match d !! key with
  | Some t => mret t
  | None => raise ("'" +:+ key +:+ "'")
  end.

Definition SimpleMultiAgent_kickoff (self_tools : gmap string Tool)
    (inputs : gmap string string) : Eff string :=
  let query_ := default "" (inputs !! "query") in
  try_catch
    (retriever_tool ← tools_index self_tools "retriever";
     retrieved ← retriever_tool query_;
     if contains "Error" retrieved || contains "No relevant documents" retrieved
     then mret retrieved
     else
       summarizer_tool ← tools_index self_tools "summarizer";
       summarized ← summarizer_tool retrieved;
       analyzer_tool ← tools_index self_tools "analyzer";
       analyzed ← analyzer_tool summarized;
       formatter_tool ← tools_index self_tools "formatter";
       formatted ← formatter_tool analyzed;
       citation_tool ← tools_index self_tools "citations";
       citation_tool formatted)
    (fun e => mret ("Error in simple workflow: " +:+ e)).

(** The object a factory returns: one of the two executor classes, holding
    its [tools]. *)
Inductive MultiAgent : Type :=
| LangGraphMultiAgent (self_tools : gmap string Tool)
| SimpleMultiAgent (self_tools : gmap string Tool).

(** [crew.kickoff(inputs=...)], by dynamic dispatch on the class. *)
Definition kickoff (crew : MultiAgent) (inputs : gmap string string) : M string :=
  match crew with
  | LangGraphMultiAgent t => LangGraphMultiAgent_kickoff t inputs
  | SimpleMultiAgent t => lift (SimpleMultiAgent_kickoff t inputs)
  end.

Definition create_langgraph_multiagent (api_key : string) (retriever : Retriever)
  : Outcome MultiAgent :=
  if negb LANGGRAPH_AVAILABLE then Raise "LangGraph not available"
  else Ok (LangGraphMultiAgent (make_tools api_key retriever)).

Definition create_simple_workflow (api_key : string) (retriever : Retriever)
  : MultiAgent :=
  SimpleMultiAgent (make_tools api_key retriever).

Definition get_multiagent_system (api_key : string) (retriever : Retriever)
    (use_enhanced : bool) : MultiAgent :=
  if use_enhanced && LANGGRAPH_AVAILABLE then
    match create_langgraph_multiagent api_key retriever with
    | Ok crew => crew
    | Raise _ => create_simple_workflow api_key retriever
    end
  else create_simple_workflow api_key retriever.

(** ** The multi-document coordinator of [chat.py] *)

(** [d[key] = v] on an insertion-ordered dict: an existing key keeps its
    place, a new key goes last. *)
Fixpoint dict_set (key v : string) (d : list (string * string))
  : list (string * string) :=
  match d with
  | [] => [(key, v)]
  | (k, v') :: rest =>
      if decide (key = k) then (key, v) :: rest
      else (k, v') :: dict_set key v rest
  end.

(** [d.get(key)] on the same dict. *)
Fixpoint dict_get (key : string) (d : list (string * string)) : option string :=
  match d with
  | [] => None
  | (k, v) :: rest => if decide (key = k) then Some v else dict_get key rest
  end.

(** The capability probe of [chat.py]: [invoke], then
    [get_relevant_documents], then a plain call; [None] (here the empty
    list, equally falsy) when the retriever has none of them. *)
Definition chat_retrieve (retriever : Retriever) (query_ : string)
  : Eff (list Document) :=
  match invoke retriever with
  | Some f => on_coll (f query_)
  | None =>
      match get_relevant_documents retriever with
      | Some f => on_coll (f query_)
      | None =>
          match call retriever with
          | Some f => on_coll (f query_)
          | None => mret []
          end
      end
  end.

(** The list comprehension over [enumerate(docs[:4])], from index [i] on. *)
Fixpoint context_parts (i : nat) (docs : list Document) : list string :=
  match docs with
  | [] => []
  | doc :: rest =>
      let source := default "Unknown" (metadata doc !! "source_file") in
      ("Excerpt " +:+ pretty (i + 1) +:+ " from " +:+ source +:+ ":" +:+ LF
         +:+ page_content doc) :: context_parts (S i) rest
  end.

Definition display_enhanced_fallback_single (query_ : string)
    (retriever : Retriever) (api_key doc_name : string) : Eff string :=
  r ← try_catch
        (docs ← chat_retrieve retriever query_; mret (inr docs))
        (fun e => mret (inl ("Error retrieving from " +:+ doc_name)));
  match r with
  | inl early => mret early
  | inr [] => mret ("No relevant content found in " +:+ doc_name)
  | inr docs =>
      let context := join (LF +:+ LF) (context_parts 0 (take 4 docs)) in
      let prompt := fallback_prompt doc_name query_ context in
      generate_content api_key prompt
  end.

(** The inner [try] that shows the sources: it queries the retriever once
    more and only draws widgets; its exceptions are caught. *)
Definition show_sources (retriever : Retriever) (query_ : string) : Eff unit :=
  try_catch (_ ← chat_retrieve retriever query_; mret tt) (fun _ => mret tt).

(** One round of the [for] loop over [selected_docs]. *)
Definition process_document (document_retrievers : gmap string Retriever)
    (query_ api_key doc_name : string) (all_responses : list (string * string))
  : M (list (string * string)) :=
  match document_retrievers !! doc_name with
  | None => mret all_responses
  | Some retriever =>
      try_catch
        (let crew := get_multiagent_system api_key retriever true in
         result ← kickoff crew {["query" := query_]};
         let all_responses := dict_set doc_name result all_responses in
         _ ← lift (show_sources retriever query_);
         mret all_responses)
        (fun e =>
           try_catch
             (fallback_result ←
                lift (display_enhanced_fallback_single query_ retriever
                        api_key doc_name);
              mret (dict_set doc_name fallback_result all_responses))
             (fun fallback_error =>
                mret (dict_set doc_name ("Error: Could not process " +:+ doc_name)
                        all_responses)))
  end.

Fixpoint process_documents (document_retrievers : gmap string Retriever)
    (query_ api_key : string) (selected_docs : list string)
    (all_responses : list (string * string)) : M (list (string * string)) :=
  match selected_docs with
  | [] => mret all_responses
  | doc_name :: rest =>
      all_responses ← process_document document_retrievers query_ api_key
                        doc_name all_responses;
      process_documents document_retrievers query_ api_key rest all_responses
  end.

(** [process_multi_document_query], with [st.session_state.document_retrievers]
    as an argument; the result is the [all_responses] dict, which the function
    stores as the [response] of the chat entry it appends. *)
Definition process_multi_document_query
    (document_retrievers : gmap string Retriever)
    (query_ : string) (selected_docs : list string) (api_key : string)
  : M (list (string * string)) :=
  process_documents document_retrievers query_ api_key selected_docs [].

(** ** Vocabulary of the statements *)

(** The first capability present, in the order of the list. *)
Fixpoint first_present {A} (caps : list (option A)) : option A :=
  match caps with
  | [] => None
  | Some a :: _ => Some a
  | None :: rest => first_present rest
  end.

(** What the retrieval tool answers once it queries through the search
    capability [f]: the marker for an empty result, the rendering of a
    non-empty one, an error marker with the reason when [f] raises. *)
Definition retrieval_via (f : Search) (query_ : string) (x : Ext)
  : Outcome string * Ext :=
  match f query_ (coll x) with
  | (Ok [], w') =>
      (Ok empty_result_marker, {| coll := w'; gen_calls := gen_calls x |})
  | (Ok docs, w') =>
      (Ok (render_documents 1 docs ("🔍 RETRIEVED DOCUMENTS:" +:+ LF +:+ LF)),
       {| coll := w'; gen_calls := gen_calls x |})
  | (Raise e, w') =>
      (Ok ("Error retrieving documents: " +:+ e),
       {| coll := w'; gen_calls := gen_calls x |})
  end.

(** The two sentinels the stages look for. *)
Definition is_sentinel (s : string) : Prop :=
  s = empty_result_marker \/ contains "Error" s = true.

(** Run a tool call under a node's [except]: the value it returns, or the
    node's error text followed by [str(e)]. *)
Definition run_or (m : Eff string) (error_text : string) (x : Ext)
  : string * Ext :=
  match m x with
  | (Ok v, x') => (v, x')
  | (Raise e, x') => (error_text +:+ e, x')
  end.

(** What each node writes to its output field, as a function of the state
    dict it reads, and the world it leaves. *)
Definition retriever_output (st : AgentState) (x : Ext) : string * Ext :=
  match tools st !! "retriever" with
  | Some retriever_tool => run_or (retriever_tool (query st)) "Error in retrieval: " x
  | None => ("Retriever tool not available", x)
  end.

Definition summarizer_output (st : AgentState) (x : Ext) : string * Ext :=
  match tools st !! "summarizer" with
  | Some summarizer_tool =>
      if truthy (retrieved_documents st) then
        if negb (contains "Error" (retrieved_documents st))
           && negb (contains "No relevant documents" (retrieved_documents st))
        then run_or (summarizer_tool (retrieved_documents st))
               "Error in summarization: " x
        else (retrieved_documents st, x)
      else ("Summarizer tool not available", x)
  | None => ("Summarizer tool not available", x)
  end.

Definition analyst_output (st : AgentState) (x : Ext) : string * Ext :=
  match tools st !! "analyzer" with
  | Some analyzer_tool =>
      if truthy (summarized_content st) then
        if negb (contains "Error" (summarized_content st))
           && negb (contains "No relevant documents" (summarized_content st))
        then run_or (analyzer_tool (summarized_content st))
               "Error in analysis: " x
        else (summarized_content st, x)
      else ("Analyzer tool not available", x)
  | None => ("Analyzer tool not available", x)
  end.

Definition quality_output (st : AgentState) (x : Ext) : string * Ext :=
  let content := content_to_format st in
  match tools st !! "formatter" with
  | Some formatter_tool =>
      if truthy content && negb (contains "Error" content)
         && negb (contains "No relevant documents" content)
      then
        run_or
          (formatted_content ← formatter_tool content;
           match tools st !! "citations" with
           | Some citation_tool => citation_tool formatted_content
           | None => mret formatted_content
           end)
          "Error in quality assurance: " x
      else (content, x)
  | None => (content, x)
  end.

(** The keys of [AgentState]. *)
Inductive Field : Type :=
| Fquery | Fretrieved_documents | Fsummarized_content | Fanalysis_results
| Ffinal_output | Fcurrent_step | Ferror | Ftools.

(** Two state dicts hold the same value under a key. *)
Definition same_field (f : Field) (a b : AgentState) : Prop :=
  match f with
  | Fquery => query a = query b
  | Fretrieved_documents => retrieved_documents a = retrieved_documents b
  | Fsummarized_content => summarized_content a = summarized_content b
  | Fanalysis_results => analysis_results a = analysis_results b
  | Ffinal_output => final_output a = final_output b
  | Fcurrent_step => current_step a = current_step b
  | Ferror => error a = error b
  | Ftools => tools a = tools b
  end.

(** Copy-on-write for one run of [node] on the dict [st] at reference
    [state]: the node returns a reference that was not in the store, every
    dict of the old store (the input among them) is still there unchanged,
    and the dict under the new reference agrees with the input on [query] and
    on every key other than [output] and [current_step]. *)
Definition copies_on_write (node : nat -> M nat) (output : Field)
    (state : nat) (h : Store) (x : Ext) (st : AgentState) : Prop :=
  exists (state' : nat) (h' : Store) (x' : Ext) (st' : AgentState),
    node state (h, x) = (Ok state', (h', x')) /\
    h !! state' = None /\
    h' !! state' = Some st' /\
    h' !! state = Some st /\
    (forall i d, h !! i = Some d -> h' !! i = Some d) /\
    same_field Fquery st' st /\
    (forall f, f <> output -> f <> Fcurrent_step -> same_field f st' st).

End Pipeline.

Arguments coll {W} _.
Arguments gen_calls {W} _.
Arguments Build_Ext {W} _ _.
Arguments get_relevant_documents {W} _.
Arguments invoke {W} _.
Arguments call {W} _.
Arguments Build_Retriever {W} _ _ _.
Arguments query {W} _.
Arguments retrieved_documents {W} _.
Arguments summarized_content {W} _.
Arguments analysis_results {W} _.
Arguments final_output {W} _.
Arguments current_step {W} _.
Arguments error {W} _.
Arguments tools {W} _.
Arguments Build_AgentState {W} _ _ _ _ _ _ _ _.
Arguments set_retrieved_documents {W} _ _.
Arguments set_summarized_content {W} _ _.
Arguments set_analysis_results {W} _ _.
Arguments set_final_output {W} _ _.
Arguments set_current_step {W} _ _.
Arguments content_to_format {W} _.
Arguments on_coll {W A} _ _.
Arguments lift {W A} _ _.
Arguments run_or {W} _ _ _.
Arguments retriever_output {W} _ _.
Arguments summarizer_output {W} _ _.
Arguments analyst_output {W} _ _.
Arguments quality_output {W} _ _.
Arguments LangGraphMultiAgent {W} _.
Arguments SimpleMultiAgent {W} _.
Arguments kickoff {W} _ _ _.
Arguments same_field {W} _ _ _.
Arguments tools_index {W} _ _ _.
Arguments SimpleMultiAgent_kickoff {W} _ _ _.

(** ** The chat history of [chat.py] *)

(** The f-string prompt of [display_enhanced_fallback]. *)
Definition single_fallback_prompt (query_ context : string) : string :=
  "Based on the following context from the uploaded document(s), provide a comprehensive and detailed answer to the user's question.

User Question: " +:+
  query_ +:+
  "

Document Context:
" +:+
  context +:+
  "

Please provide a detailed answer that includes:

1. **MAIN OVERVIEW**: Clear overview addressing the query
2. **KEY CONCEPTS**: Detailed explanation of main concepts and ideas  
3. **SPECIFIC DETAILS**: Specific examples, data points, and details from the documents
4. **STRUCTURED ORGANIZATION**: Clear sections with headings and bullet points
5. **SOURCE REFERENCES**: Citations to specific excerpts when mentioning information
6. **COMPREHENSIVE COVERAGE**: Thorough coverage of all relevant aspects

Format the response professionally with proper markdown formatting for readability.

Detailed Answer:".

(** The [response] of a chat entry: the text of a single-document answer, or
    the [all_responses] dict of a multi-document query. *)
Inductive Response : Type :=
| ResponseText (text : string)
| ResponseByDocument (all_responses : list (string * string)).

(** A chat entry dict; a key that an entry does not have is [None]. *)
Record ChatEntry : Type := {
  entry_query : string;
  entry_response : Response;
  entry_document : string;
  entry_timestamp : string;
  entry_agent_generated : bool;
  entry_sources_used : option nat;
  entry_multi_document : option bool
}.

(** [if 'chat_history' not in st.session_state: st.session_state.chat_history
    = []] followed by [st.session_state.chat_history.append(chat_entry)];
    [None] is a session without the key. *)
Definition history_append (chat_history : option (list ChatEntry))
    (chat_entry : ChatEntry) : option (list ChatEntry) :=
  Some (default [] chat_history ++ [chat_entry]).

Section ChatSession.

Variable W : Type.
Variable genai_generate : string -> string -> W -> Outcome string * W.
Variable str_upper : string -> string.
Variable LANGGRAPH_AVAILABLE : bool.

(** [display_enhanced_answer], with [st.session_state.selected_document], the
    reading [now] of [datetime.now().isoformat()] and the chat history as
    arguments; the result is the chat history it leaves.  Its [try] that
    shows the sources has the shape of [show_sources]. *)
Definition display_enhanced_answer (query_ result : string)
    (retriever : Retriever W) (selected_document now : string)
    (chat_history : option (list ChatEntry))
  : Eff W (option (list ChatEntry)) :=
  _ ← show_sources W retriever query_;
  mret (history_append chat_history
          {| entry_query := query_; entry_response := ResponseText result;
             entry_document := selected_document; entry_timestamp := now;
             entry_agent_generated := true; entry_sources_used := None;
             entry_multi_document := None |}).

(** [display_enhanced_fallback], with the same arguments. *)
Definition display_enhanced_fallback (query_ : string) (retriever : Retriever W)
    (api_key selected_document now : string)
    (chat_history : option (list ChatEntry))
  : Eff W (option (list ChatEntry)) :=
  r ← try_catch
        (docs ← chat_retrieve W retriever query_; mret (Some docs))
        (fun e => mret None);
  match r with
  | None => mret chat_history
  | Some [] => mret chat_history
  | Some docs =>
      let context := join (LF +:+ LF) (context_parts 0 (take 6 docs)) in
      let prompt := single_fallback_prompt query_ context in
      response ← generate_content W genai_generate api_key prompt;
      mret (history_append chat_history
              {| entry_query := query_; entry_response := ResponseText response;
                 entry_document := selected_document; entry_timestamp := now;
                 entry_agent_generated := false;
                 entry_sources_used := Some (length docs);
                 entry_multi_document := None |})
  end.

(** [process_single_document_query]; [retriever] is [None] for a falsy
    [st.session_state.current_retriever]. *)
Definition process_single_document_query (query_ api_key : string)
    (retriever : option (Retriever W)) (selected_document now : string)
    (chat_history : option (list ChatEntry))
  : M W (option (list ChatEntry)) :=
  match retriever with
  | None => mret chat_history
  | Some retriever =>
      try_catch
        (let crew := get_multiagent_system W genai_generate str_upper
                       LANGGRAPH_AVAILABLE api_key retriever true in
         result ← kickoff crew {["query" := query_]};
         lift (display_enhanced_answer query_ result retriever
                 selected_document now chat_history))
        (fun e =>
           try_catch
             (lift (display_enhanced_fallback query_ retriever api_key
                      selected_document now chat_history))
             (fun fallback_error => mret chat_history))
  end.

(** [process_multi_document_query] followed to its last statement: the chat
    history it leaves. *)
Definition process_multi_document_query_history
    (document_retrievers : gmap string (Retriever W))
    (query_ : string) (selected_docs : list string) (api_key now : string)
    (chat_history : option (list ChatEntry))
  : M W (option (list ChatEntry)) :=
  all_responses ← process_multi_document_query W genai_generate str_upper
                    LANGGRAPH_AVAILABLE document_retrievers query_
                    selected_docs api_key;
  match all_responses with
  | [] => mret chat_history
  | _ =>
      mret (history_append chat_history
              {| entry_query := query_;
                 entry_response := ResponseByDocument all_responses;
                 entry_document :=
                   "Multiple Documents: " +:+ join ", " selected_docs;
                 entry_timestamp := now; entry_agent_generated := true;
                 entry_sources_used := None;
                 entry_multi_document := Some true |})
  end.

(** ** More vocabulary of the statements *)

(** The three lines [DocumentRetrieverTool.run] writes for the chunk numbered
    [i]. *)
Definition document_block (i : nat) (doc : Document) : string :=
  ("📄 DOCUMENT " +:+ pretty i +:+ " - "
     +:+ default "Unknown" (metadata doc !! "source_file")
     +:+ " (" +:+ str_upper (default "Unknown" (metadata doc !! "file_format"))
     +:+ ")" +:+ LF)
  +:+ ("Content: " +:+ page_content doc +:+ LF)
  +:+ (repeat "─" 80 +:+ LF +:+ LF).

(** The blocks of the chunks [docs], numbered from [i] on, one after the
    other. *)
Fixpoint document_blocks (i : nat) (docs : list Document) : string :=
  match docs with
  | [] => ""
  | doc :: rest => document_block i doc +:+ document_blocks (S i) rest
  end.

(** The test the stages make before calling a tool: the text carries the
    token [Error] or the phrase [No relevant documents]. *)
Definition carries_sentinel (s : string) : bool :=
  contains "Error" s || contains "No relevant documents" s.

End ChatSession.

Arguments display_enhanced_answer {W} _ _ _ _ _ _ _.

(** The text after the first character: [s[1:]]. *)
Definition rest_of (s : string) : string :=
  match s with
  | EmptyString => EmptyString
  | String _ t => t
  end.

(** The character [ch] occurs in [s]. *)
Fixpoint mentions (ch : ascii) (s : string) : bool :=
  match s with
  | EmptyString => false
  | String c rest => bool_decide (c = ch) || mentions ch rest
  end.

(** ** Concrete collaborators and states for the examples *)

Module Scenario.

(** [str.upper] on ASCII text. *)
Fixpoint ascii_upper (s : string) : string :=
  match s with
  | EmptyString => EmptyString
  | String c rest =>
      let n := nat_of_ascii c in
      String (if (97 <=? n)%nat && (n <=? 122)%nat
              then ascii_of_nat (n - 32) else c)
             (ascii_upper rest)
  end.

(** A generation collaborator that always answers. *)
Definition gen_ok : string -> string -> unit -> Outcome string * unit :=
  fun _ _ w => (Ok "Plants turn light into sugar.", w).

(** A generation collaborator whose every call fails. *)
Definition gen_quota : string -> string -> unit -> Outcome string * unit :=
  fun _ _ w => (Raise "quota exceeded", w).

Definition bio_chunk : Document :=
  {| page_content := "Photosynthesis converts light to chemical energy.";
     metadata := {["source_file" := "bio.txt"]} |}.

Definition bare_chunk : Document :=
  {| page_content := "An untitled note."; metadata := ∅ |}.

Definition search_bio : Search unit := fun _ w => (Ok [bio_chunk; bare_chunk], w).
Definition search_nothing : Search unit := fun _ w => (Ok [], w).
Definition search_boom : Search unit := fun _ w => (Raise "boom", w).

(** Retrievers with one capability each. *)
Definition retriever_bio : Retriever unit :=
  {| get_relevant_documents := Some search_bio; invoke := None; call := None |}.

Definition retriever_nothing : Retriever unit :=
  {| get_relevant_documents := None; invoke := Some search_nothing;
     call := None |}.

Definition retriever_boom : Retriever unit :=
  {| get_relevant_documents := None; invoke := None; call := Some search_boom |}.

Definition x0 : Ext unit := {| coll := tt; gen_calls := [] |}.

Definition tools_ok : gmap string (Tool unit) :=
  make_tools unit gen_ok ascii_upper "key" retriever_bio.

(** A state as [kickoff] creates it. *)
Definition st_started : AgentState unit :=
  {| query := "What is the main topic?"; retrieved_documents := "";
     summarized_content := ""; analysis_results := ""; final_output := "";
     current_step := "started"; error := ""; tools := tools_ok |}.

(** A state whose retrieval found nothing. *)
Definition st_no_results : AgentState unit :=
  {| query := "xyzzy123nonsense";
     retrieved_documents := empty_result_marker;
     summarized_content := empty_result_marker;
     analysis_results := empty_result_marker; final_output := "";
     current_step := "analysis_complete"; error := ""; tools := tools_ok |}.

(** The registry [st.session_state.document_retrievers] for three targets,
    the second of which has a retriever that raises. *)
Definition registry : gmap string (Retriever unit) :=
  <["alpha.pdf" := retriever_bio]>
  (<["beta.pdf" := retriever_boom]>
  (<["gamma.pdf" := retriever_bio]> ∅)).

(** A registry in which the second target has no retriever. *)
Definition registry_gap : gmap string (Retriever unit) :=
  <["alpha.pdf" := retriever_bio]> (<["gamma.pdf" := retriever_bio]> ∅).

Definition targets : list string := ["alpha.pdf"; "beta.pdf"; "gamma.pdf"].

(** A chunk whose content mentions the token [Error]. *)
Definition guide_chunk : Document :=
  {| page_content := "Error handling in Python uses try and except.";
     metadata := {["source_file" := "guide.txt"]} |}.

Definition search_guide : Search unit := fun _ w => (Ok [bio_chunk; guide_chunk], w).

Definition retriever_guide : Retriever unit :=
  {| get_relevant_documents := Some search_guide; invoke := None; call := None |}.

(** A retriever with two capabilities that answer differently. *)
Definition retriever_both : Retriever unit :=
  {| get_relevant_documents := Some search_bio; invoke := Some search_nothing;
     call := None |}.

(** Tools whose retriever tool raises, and tools without a retriever tool. *)
Definition tools_raising : gmap string (Tool unit) :=
  <["retriever" := fun _ => raise "index unavailable"]> tools_ok.

Definition tools_without_retriever : gmap string (Tool unit) :=
  delete "retriever" tools_ok.

Definition question : gmap string string :=
  {["query" := "What is the main topic?"]}.

End Scenario.

(** * Properties *)

(** ** Substrings *)

#[local] Arguments String.append !_ _ / : simpl nomatch.

Lemma append_assoc (a b c : string) : (a +:+ b) +:+ c = a +:+ (b +:+ c).
Proof. induction a as [|ch a IH]; simpl; [reflexivity | by f_equal]. Qed.

Lemma append_empty_r (a : string) : a +:+ "" = a.
Proof. induction a as [|ch a IH]; simpl; [reflexivity | by f_equal]. Qed.

Lemma startswith_append (n t : string) : startswith n (n +:+ t) = true.
Proof.
  induction n as [|ch n IH]; simpl; [reflexivity |].
  destruct (decide (ch = ch)); [exact IH | congruence].
Qed.

Lemma startswith_inv (n h : string) :
  startswith n h = true -> exists t, h = n +:+ t.
Proof.
  revert h; induction n as [|ch n IH]; intros h Hs.
  - by exists h.
  - destruct h as [|c h]; simpl in Hs; [discriminate |].
    destruct (decide (ch = c)) as [->|]; [| discriminate].
    destruct (IH _ Hs) as [t ->]. by exists t.
Qed.

Lemma contains_unfold (n h : string) :
  contains n h =
  startswith n h || match h with "" => false | String _ t => contains n t end.
Proof. by destruct h. Qed.

(** [contains] is the contiguous-substring test. *)
Lemma contains_spec (n h : string) :
  contains n h = true <-> exists a b, h = a +:+ n +:+ b.
Proof.
  split.
  - induction h as [|c h IH]; simpl; intros Hc.
    + rewrite orb_false_r in Hc. apply startswith_inv in Hc as [t Ht].
      by exists "", t.
    + apply orb_true_iff in Hc as [Hs | Hc].
      * apply startswith_inv in Hs as [t Ht]. by exists "", t.
      * destruct (IH Hc) as (a & b & ->). by exists (String c a), b.
  - intros (a & b & ->). induction a as [|c a IH]; simpl.
    + rewrite contains_unfold, startswith_append. reflexivity.
    + rewrite IH. apply orb_true_r.
Qed.

Lemma contains_append_mid (n a b : string) : contains n (a +:+ n +:+ b) = true.
Proof. apply contains_spec. by exists a, b. Qed.

Lemma contains_append_r (n a : string) : contains n (a +:+ n) = true.
Proof. apply contains_spec. exists a, "". by rewrite append_empty_r. Qed.

Lemma contains_self (n : string) : contains n n = true.
Proof. apply contains_spec. exists "", "". simpl. by rewrite append_empty_r. Qed.

Lemma contains_trans (a b c : string) :
  contains a b = true -> contains b c = true -> contains a c = true.
Proof.
  rewrite !contains_spec. intros (p & q & ->) (r & s & ->).
  exists (r +:+ p), (q +:+ s). by rewrite !append_assoc.
Qed.

Lemma truthy_false (s : string) : truthy s = false <-> s = "".
Proof. destruct s; simpl; split; congruence. Qed.

Lemma truthy_true (s : string) : truthy s = true <-> s <> "".
Proof. destruct s; simpl; split; congruence. Qed.

(** ** The monad on concrete states *)

Lemma bind_ok {S A B} (m : SE S A) (k : A -> SE S B) s a s' :
  m s = (Ok a, s') -> (m ≫= k) s = k a s'.
Proof. intros H. unfold mbind, SE_bind. by rewrite H. Qed.

Lemma bind_raise {S A B} (m : SE S A) (k : A -> SE S B) s e s' :
  m s = (Raise e, s') -> (m ≫= k) s = (Raise e, s').
Proof. intros H. unfold mbind, SE_bind. by rewrite H. Qed.

Lemma try_catch_ok {S A} (m : SE S A) h s a s' :
  m s = (Ok a, s') -> try_catch m h s = (Ok a, s').
Proof. intros H. unfold try_catch. by rewrite H. Qed.

Lemma try_catch_raise {S A} (m : SE S A) h s e s' :
  m s = (Raise e, s') -> try_catch m h s = h e s'.
Proof. intros H. unfold try_catch. by rewrite H. Qed.

(** A [try] whose handler returns, returns. *)
Lemma try_catch_returns {S A} (m : SE S A) h s :
  (forall e s', returns (h e) s') -> returns (try_catch m h) s.
Proof.
  intros Hh. unfold returns, try_catch.
  destruct (m s) as [[a|e] s']; [by eexists _, _ | apply Hh].
Qed.

Section Tools.

Context (W : Type).
Context (genai_generate : string -> string -> W -> Outcome string * W).
Context (str_upper : string -> string).

Local Abbreviation DocumentRetrieverTool_run :=
  (DocumentRetrieverTool_run W str_upper).
Local Abbreviation ContentSummarizerTool_run :=
  (ContentSummarizerTool_run W genai_generate).
Local Abbreviation DocumentAnalyzerTool_run :=
  (DocumentAnalyzerTool_run W genai_generate).
Local Abbreviation make_tools := (make_tools W genai_generate str_upper).

(** *** The formatter and the citation manager *)

Lemma ContentFormatterTool_run_error (c : string) :
  c = "" \/ contains "Error" c = true -> ContentFormatterTool_run c = c.
Proof.
  intros [-> | H]; [reflexivity |].
  unfold ContentFormatterTool_run. by rewrite H, orb_true_r.
Qed.

Lemma CitationManagerTool_run_error (c : string) :
  c = "" \/ contains "Error" c = true -> CitationManagerTool_run c = c.
Proof.
  intros [-> | H]; [reflexivity |].
  unfold CitationManagerTool_run. by rewrite H, orb_true_r.
Qed.

Lemma ContentFormatterTool_run_wraps (c : string) :
  c <> "" -> contains "Error" c = false ->
  ContentFormatterTool_run c = formatter_head +:+ c +:+ formatter_tail.
Proof.
  intros Hne He. apply truthy_true in Hne.
  unfold ContentFormatterTool_run. by rewrite Hne, He.
Qed.

Lemma CitationManagerTool_run_wraps (c : string) :
  c <> "" -> contains "Error" c = false ->
  CitationManagerTool_run c = citation_head +:+ c +:+ citation_tail.
Proof.
  intros Hne He. apply truthy_true in Hne.
  unfold CitationManagerTool_run. by rewrite Hne, He.
Qed.

Lemma make_tools_retriever api_key r :
  make_tools api_key r !! "retriever" = Some (DocumentRetrieverTool_run r).
Proof. reflexivity. Qed.

Lemma make_tools_summarizer api_key r :
  make_tools api_key r !! "summarizer"
  = Some (ContentSummarizerTool_run api_key).
Proof. reflexivity. Qed.

Lemma make_tools_analyzer api_key r :
  make_tools api_key r !! "analyzer" = Some (DocumentAnalyzerTool_run api_key).
Proof. reflexivity. Qed.

Lemma make_tools_formatter api_key r :
  make_tools api_key r !! "formatter"
  = Some (fun content => mret (ContentFormatterTool_run content)).
Proof. reflexivity. Qed.

Lemma make_tools_citations api_key r :
  make_tools api_key r !! "citations"
  = Some (fun content => mret (CitationManagerTool_run content)).
Proof. reflexivity. Qed.

(** Whatever the content, it is part of what each of the two tools
    returns. *)
Lemma ContentFormatterTool_run_contains (c : string) :
  contains c (ContentFormatterTool_run c) = true.
Proof.
  unfold ContentFormatterTool_run.
  destruct (negb (truthy c) || contains "Error" c);
    [apply contains_self | apply contains_append_mid].
Qed.

Lemma CitationManagerTool_run_contains (c : string) :
  contains c (CitationManagerTool_run c) = true.
Proof.
  unfold CitationManagerTool_run.
  destruct (negb (truthy c) || contains "Error" c);
    [apply contains_self | apply contains_append_mid].
Qed.

(** C10. For a non-empty content without the token [Error], the formatter
    and the citation manager each return their fixed head, the content, and
    their fixed tail, so the content is a contiguous substring of the result;
    as installed in the [tools] dict, both return on every string (they never
    raise) and leave the collaborators untouched. *)
Theorem formatter_and_citations_preserve_content
    (c api_key : string) (r : Retriever W) :
  c <> "" -> contains "Error" c = false ->
  (ContentFormatterTool_run c = formatter_head +:+ c +:+ formatter_tail /\
   contains c (ContentFormatterTool_run c) = true) /\
  (CitationManagerTool_run c = citation_head +:+ c +:+ citation_tail /\
   contains c (CitationManagerTool_run c) = true) /\
  exists formatter_tool citation_tool : Tool W,
    make_tools api_key r !! "formatter" = Some formatter_tool /\
    make_tools api_key r !! "citations" = Some citation_tool /\
    forall (s : string) (x : Ext W),
      formatter_tool s x = (Ok (ContentFormatterTool_run s), x) /\
      citation_tool s x = (Ok (CitationManagerTool_run s), x).
Proof.
  intros Hne He.
  rewrite (ContentFormatterTool_run_wraps c Hne He).
  rewrite (CitationManagerTool_run_wraps c Hne He).
  repeat split; try apply contains_append_mid.
  eexists _, _. rewrite make_tools_formatter, make_tools_citations.
  repeat split.
Qed.

(** *** The two generation tools *)

Lemma generate_content_raise api_key prompt (x : Ext W) reason w' :
  genai_generate api_key prompt (coll x) = (Raise reason, w') ->
  generate_content W genai_generate api_key prompt x
  = (Raise reason, {| coll := w'; gen_calls := gen_calls x ++ [prompt] |}).
Proof. intros H. unfold generate_content. by rewrite H. Qed.

Lemma generate_content_ok api_key prompt (x : Ext W) text w' :
  genai_generate api_key prompt (coll x) = (Ok text, w') ->
  generate_content W genai_generate api_key prompt x
  = (Ok text, {| coll := w'; gen_calls := gen_calls x ++ [prompt] |}).
Proof. intros H. unfold generate_content. by rewrite H. Qed.

Lemma ContentSummarizerTool_run_returns api_key text (x : Ext W) :
  returns (ContentSummarizerTool_run api_key text) x.
Proof. apply try_catch_returns. intros e s'. by eexists _, _. Qed.

Lemma DocumentAnalyzerTool_run_returns api_key text (x : Ext W) :
  returns (DocumentAnalyzerTool_run api_key text) x.
Proof. apply try_catch_returns. intros e s'. by eexists _, _. Qed.

(** C4. When the generation call made by the summarizer (by the analyzer)
    raises with some reason, the tool's [run] returns the string
    [Error generating summary: ] ([Error analyzing content: ]) followed by
    that reason: an error marker that contains the reason; and in every case,
    whatever the collaborator does, [run] returns and does not raise. *)
Theorem generation_failure_becomes_error_marker
    (api_key text : string) (x : Ext W) :
  (forall reason w',
     genai_generate api_key
       (summary_prompt_head +:+ text +:+ summary_prompt_tail) (coll x)
       = (Raise reason, w') ->
     exists x',
       ContentSummarizerTool_run api_key text x
       = (Ok ("Error generating summary: " +:+ reason), x') /\
       contains "Error" ("Error generating summary: " +:+ reason) = true /\
       contains reason ("Error generating summary: " +:+ reason) = true) /\
  (forall reason w',
     genai_generate api_key
       (analysis_prompt_head +:+ text +:+ analysis_prompt_tail) (coll x)
       = (Raise reason, w') ->
     exists x',
       DocumentAnalyzerTool_run api_key text x
       = (Ok ("Error analyzing content: " +:+ reason), x') /\
       contains "Error" ("Error analyzing content: " +:+ reason) = true /\
       contains reason ("Error analyzing content: " +:+ reason) = true) /\
  returns (ContentSummarizerTool_run api_key text) x /\
  returns (DocumentAnalyzerTool_run api_key text) x.
Proof.
  split; [| split; [| split]].
  - intros reason w' Hgen. eexists. split; [| split].
    + unfold ContentSummarizerTool_run, try_catch, mbind, SE_bind.
      by rewrite (generate_content_raise _ _ _ _ _ Hgen).
    + reflexivity.
    + apply contains_append_r.
  - intros reason w' Hgen. eexists. split; [| split].
    + unfold DocumentAnalyzerTool_run, try_catch, mbind, SE_bind.
      by rewrite (generate_content_raise _ _ _ _ _ Hgen).
    + reflexivity.
    + apply contains_append_r.
  - apply ContentSummarizerTool_run_returns.
  - apply DocumentAnalyzerTool_run_returns.
Qed.

(** *** The retrieval tool *)

Lemma DocumentRetrieverTool_run_via (r : Retriever W) (f : Search W) q x :
  first_present [get_relevant_documents r; invoke r; call r] = Some f ->
  DocumentRetrieverTool_run r q x = retrieval_via W str_upper f q x.
Proof.
  intros Hf. unfold DocumentRetrieverTool_run, retrieval_via.
  assert (Hvia : forall g : Search W,
    try_catch
      (docs ← on_coll (g q);
       match docs with
       | [] => mret empty_result_marker
       | _ => mret (render_documents str_upper 1 docs ("🔍 RETRIEVED DOCUMENTS:" +:+ LF +:+ LF))
       end)
      (fun e => mret ("Error retrieving documents: " +:+ e)) x
    = match g q (coll x) with
      | (Ok [], w') =>
          (Ok empty_result_marker,
           {| coll := w'; gen_calls := gen_calls x |})
      | (Ok docs, w') =>
          (Ok (render_documents str_upper 1 docs ("🔍 RETRIEVED DOCUMENTS:" +:+ LF +:+ LF)),
           {| coll := w'; gen_calls := gen_calls x |})
      | (Raise e, w') =>
          (Ok ("Error retrieving documents: " +:+ e),
           {| coll := w'; gen_calls := gen_calls x |})
      end).
  { intros g. unfold try_catch, mbind, SE_bind, on_coll.
    destruct (g q (coll x)) as [[[|d ds]|e] w']; reflexivity. }
  simpl in Hf.
  destruct (get_relevant_documents r) as [g1|].
  { injection Hf as <-. apply Hvia. }
  destruct (invoke r) as [g2|].
  { injection Hf as <-. apply Hvia. }
  destruct (call r) as [g3|]; [| discriminate].
  injection Hf as <-. apply Hvia.
Qed.

Lemma DocumentRetrieverTool_run_none (r : Retriever W) q x :
  first_present [get_relevant_documents r; invoke r; call r] = None ->
  DocumentRetrieverTool_run r q x
  = (Ok "Error: Retriever object has no compatible method", x).
Proof.
  intros Hf. unfold DocumentRetrieverTool_run. simpl in Hf.
  destruct (get_relevant_documents r); [discriminate |].
  destruct (invoke r); [discriminate |].
  destruct (call r); [discriminate |]. reflexivity.
Qed.

Lemma DocumentRetrieverTool_run_returns (r : Retriever W) q x :
  returns (DocumentRetrieverTool_run r q) x.
Proof. apply try_catch_returns. intros e s'. by eexists _, _. Qed.

Lemma DocumentRetrieverTool_run_cases (r : Retriever W) (q : string) (x : Ext W) :
  DocumentRetrieverTool_run r q x
  = match first_present
            [get_relevant_documents r; invoke r; call r] with
    | Some f => retrieval_via W str_upper f q x
    | None => (Ok "Error: Retriever object has no compatible method", x)
    end.
Proof.
  destruct (first_present _) as [f|] eqn:Hf.
  - by apply DocumentRetrieverTool_run_via.
  - by apply DocumentRetrieverTool_run_none.
Qed.

(** C6. The retrieval tool queries through the first capability present in
    the order [get_relevant_documents], [invoke], plain call; with none of
    the three it returns the text
    [Error: Retriever object has no compatible method] and leaves the
    collaborators untouched; in every case it returns and does not raise. *)
Theorem retrieval_adapter_priority (r : Retriever W) (q : string) (x : Ext W) :
  DocumentRetrieverTool_run r q x
  = match first_present
            [get_relevant_documents r; invoke r; call r] with
    | Some f => retrieval_via W str_upper f q x
    | None => (Ok "Error: Retriever object has no compatible method", x)
    end /\
  returns (DocumentRetrieverTool_run r q) x.
Proof.
  split;
    [apply DocumentRetrieverTool_run_cases
    | apply DocumentRetrieverTool_run_returns].
Qed.

(** *** Source attribution in the rendering *)

(** The rendering only ever appends to what it was given. *)
Lemma render_documents_acc (docs : list Document) (i : nat) (result : string) :
  render_documents str_upper i docs result = result +:+ render_documents str_upper i docs "".
Proof.
  revert i result. induction docs as [|doc rest IH]; intros i result.
  - cbn [render_documents]. by rewrite append_empty_r.
  - cbn [render_documents]. cbv zeta.
    rewrite IH. rewrite (IH _ ((_ +:+ _) +:+ _)).
    by rewrite !append_assoc.
Qed.

(** The header line of the chunk at position [k] is part of the rendering,
    numbered from the start index. *)
Lemma render_documents_header (docs : list Document) (k i : nat)
    (doc : Document) (result : string) :
  docs !! k = Some doc ->
  exists pre post,
    render_documents str_upper i docs result
    = pre +:+ ("📄 DOCUMENT " +:+ pretty (i + k) +:+ " - "
               +:+ default "Unknown" (metadata doc !! "source_file") +:+ " (")
          +:+ post.
Proof.
  revert k i result. induction docs as [|d rest IH]; intros k i result Hk.
  - discriminate.
  - cbn [render_documents]. cbv zeta. destruct k as [|k].
    + injection Hk as ->. rewrite Nat.add_0_r.
      rewrite render_documents_acc.
      eexists result, _. rewrite !append_assoc. reflexivity.
    + destruct (IH k (S i) (((result +:+ ("📄 DOCUMENT " +:+ pretty i +:+ " - "
               +:+ default "Unknown" (metadata d !! "source_file")
               +:+ " (" +:+ str_upper
                     (default "Unknown" (metadata d !! "file_format"))
               +:+ ")" +:+ LF))
               +:+ ("Content: " +:+ page_content d +:+ LF))
               +:+ (repeat "─" 80 +:+ LF +:+ LF)) Hk)
        as (pre & post & ->).
      replace (S i + k) with (i + S k) by lia. by eexists _, _.
Qed.

(** C9. When the capability the retrieval tool uses returns chunks, the tool
    returns a text in which the chunk at position [i] has the header line
    [DOCUMENT i+1 - source (]: there [source] is, verbatim, the value of the
    chunk's metadata key [source_file], and it is [Unknown] when the key is
    absent; the citation manager, run on that text, keeps the line. *)
Theorem source_file_surfaces_in_retrieval_output
    (r : Retriever W) (f : Search W) (q : string) (x : Ext W)
    (docs : list Document) (w' : W) (i : nat) (doc : Document) :
  first_present [get_relevant_documents r; invoke r; call r] = Some f ->
  f q (coll x) = (Ok docs, w') ->
  docs !! i = Some doc ->
  exists out,
    DocumentRetrieverTool_run r q x
    = (Ok out, {| coll := w'; gen_calls := gen_calls x |}) /\
    (forall s, metadata doc !! "source_file" = Some s ->
       let line := "📄 DOCUMENT " +:+ pretty (i + 1) +:+ " - " +:+ s +:+ " (" in
       contains line out = true /\
       contains line (CitationManagerTool_run out) = true) /\
    (metadata doc !! "source_file" = None ->
       let line := "📄 DOCUMENT " +:+ pretty (i + 1) +:+ " - Unknown (" in
       contains line out = true /\
       contains line (CitationManagerTool_run out) = true).
Proof.
  intros Hf Hq Hi.
  rewrite (DocumentRetrieverTool_run_via r f q x Hf).
  unfold retrieval_via. rewrite Hq.
  destruct docs as [|d ds]; [discriminate |].
  eexists. split; [reflexivity |].
  destruct (render_documents_header (d :: ds) i 1 doc
              ("🔍 RETRIEVED DOCUMENTS:" +:+ LF +:+ LF) Hi) as (pre & post & ->).
  replace (1 + i) with (i + 1) by lia.
  split.
  - intros s Hs. cbv zeta. rewrite Hs. cbn [default].
    set (line := "📄 DOCUMENT " +:+ pretty (i + 1) +:+ " - " +:+ s +:+ " (").
    assert (Hin : contains line (pre +:+ line +:+ post) = true)
      by apply contains_append_mid.
    split; [exact Hin |].
    exact (contains_trans _ _ _ Hin (CitationManagerTool_run_contains _)).
  - intros Hs. cbv zeta. rewrite Hs. cbn [default].
    set (line := "📄 DOCUMENT " +:+ pretty (i + 1) +:+ " - " +:+ "Unknown"
                 +:+ " (").
    assert (Hin : contains line (pre +:+ line +:+ post) = true)
      by apply contains_append_mid.
    split; [exact Hin |].
    exact (contains_trans _ _ _ Hin (CitationManagerTool_run_contains _)).
Qed.

End Tools.

(** ** The agent nodes *)

Section Nodes.

Context (W : Type).

Local Abbreviation retriever_agent := (retriever_agent W).
Local Abbreviation summarizer_agent := (summarizer_agent W).
Local Abbreviation analyst_agent := (analyst_agent W).
Local Abbreviation quality_agent := (quality_agent W).

Local Ltac node_unfold :=
  repeat progress
    unfold try_catch, mbind, SE_bind, mret, SE_ret, state_copy, state_get,
      state_new, lift, run_or.

(** Each node reads the dict it is given and allocates one new dict, which
    differs from the one read in the node's output field and in
    [current_step]; the store is otherwise as before. *)
Lemma retriever_agent_spec (l : nat) (h : Store W) (x : Ext W) st :
  h !! l = Some st ->
  retriever_agent l (h, x)
  = (Ok (length h),
     (h ++ [set_current_step "retrieval_complete"
              (set_retrieved_documents (retriever_output st x).1 st)],
      (retriever_output st x).2)).
Proof.
  intros Hl. unfold retriever_agent, retriever_output. node_unfold.
  rewrite Hl. destruct (tools st !! "retriever") as [t|]; rewrite ?Hl; [| done].
  destruct (t (query st) x) as [[v|e] x']; by rewrite Hl.
Qed.

Lemma summarizer_agent_spec (l : nat) (h : Store W) (x : Ext W) st :
  h !! l = Some st ->
  summarizer_agent l (h, x)
  = (Ok (length h),
     (h ++ [set_current_step "summarization_complete"
              (set_summarized_content (summarizer_output st x).1 st)],
      (summarizer_output st x).2)).
Proof.
  intros Hl. unfold summarizer_agent, summarizer_output. node_unfold.
  rewrite Hl. destruct (tools st !! "summarizer") as [t|]; rewrite ?Hl; [| done].
  destruct (truthy (retrieved_documents st)); rewrite ?Hl; [| done].
  destruct (negb _ && negb _); rewrite ?Hl; [| done].
  destruct (t (retrieved_documents st) x) as [[v|e] x']; by rewrite Hl.
Qed.

Lemma analyst_agent_spec (l : nat) (h : Store W) (x : Ext W) st :
  h !! l = Some st ->
  analyst_agent l (h, x)
  = (Ok (length h),
     (h ++ [set_current_step "analysis_complete"
              (set_analysis_results (analyst_output st x).1 st)],
      (analyst_output st x).2)).
Proof.
  intros Hl. unfold analyst_agent, analyst_output. node_unfold.
  rewrite Hl. destruct (tools st !! "analyzer") as [t|]; rewrite ?Hl; [| done].
  destruct (truthy (summarized_content st)); rewrite ?Hl; [| done].
  destruct (negb _ && negb _); rewrite ?Hl; [| done].
  destruct (t (summarized_content st) x) as [[v|e] x']; by rewrite Hl.
Qed.

Lemma quality_agent_spec (l : nat) (h : Store W) (x : Ext W) st :
  h !! l = Some st ->
  quality_agent l (h, x)
  = (Ok (length h),
     (h ++ [set_current_step "complete"
              (set_final_output (quality_output st x).1 st)],
      (quality_output st x).2)).
Proof.
  intros Hl. unfold quality_agent, quality_output. node_unfold.
  rewrite Hl. cbv zeta.
  destruct (tools st !! "formatter") as [fmt|]; rewrite ?Hl; [| done].
  destruct (truthy _ && negb _ && negb _); rewrite ?Hl; [| done].
  destruct (fmt (content_to_format st) x) as [[v|e] x']; rewrite ?Hl; [| done].
  destruct (tools st !! "citations") as [cit|]; rewrite ?Hl; [| done].
  destruct (cit v x') as [[v'|e] x'']; by rewrite Hl.
Qed.

Lemma copies_on_write_intro (node : nat -> M W nat) (output : Field)
    l h x x' (st st' : AgentState W) :
  h !! l = Some st ->
  node l (h, x) = (Ok (length h), (h ++ [st'], x')) ->
  same_field Fquery st' st ->
  (forall f, f <> output -> f <> Fcurrent_step -> same_field f st' st) ->
  copies_on_write W node output l h x st.
Proof.
  intros Hl Hrun Hq Hframe.
  exists (length h), (h ++ [st']), x', st'.
  split; [exact Hrun |]. split; [by apply lookup_ge_None_2 |].
  split; [by apply list_lookup_middle |].
  split; [by apply lookup_app_l_Some |].
  split; [intros i d Hi; by apply lookup_app_l_Some | by split].
Qed.

(** C8. Run on a state dict of the store, each of the four agent nodes
    returns a reference to a dict allocated by the run; the input dict and
    every other dict of the store are left as they were; and the new dict has
    the input's [query] and differs from the input at most under the node's
    output key ([retrieved_documents], [summarized_content],
    [analysis_results], [final_output]) and under [current_step]. *)
Theorem agent_nodes_copy_on_write
    (l : nat) (h : Store W) (x : Ext W) (st : AgentState W) :
  h !! l = Some st ->
  copies_on_write W retriever_agent Fretrieved_documents l h x st /\
  copies_on_write W summarizer_agent Fsummarized_content l h x st /\
  copies_on_write W analyst_agent Fanalysis_results l h x st /\
  copies_on_write W quality_agent Ffinal_output l h x st.
Proof.
  intros Hl. repeat split.
  - eapply copies_on_write_intro;
      [exact Hl | by apply retriever_agent_spec | reflexivity |].
    by intros [] ? ?.
  - eapply copies_on_write_intro;
      [exact Hl | by apply summarizer_agent_spec | reflexivity |].
    by intros [] ? ?.
  - eapply copies_on_write_intro;
      [exact Hl | by apply analyst_agent_spec | reflexivity |].
    by intros [] ? ?.
  - eapply copies_on_write_intro;
      [exact Hl | by apply quality_agent_spec | reflexivity |].
    by intros [] ? ?.
Qed.

(** *** Sentinels at the nodes *)

Lemma is_sentinel_truthy (c : string) : is_sentinel c -> truthy c = true.
Proof.
  intros [-> | H]; [reflexivity |]. destruct c; [discriminate | reflexivity].
Qed.

(** A sentinel does not pass the guard that precedes a tool call. *)
Lemma is_sentinel_guard (c : string) :
  is_sentinel c ->
  negb (contains "Error" c) && negb (contains "No relevant documents" c)
  = false.
Proof.
  intros [-> | H]; [reflexivity |]. by rewrite H.
Qed.

Lemma summarizer_output_sentinel (st : AgentState W) (x : Ext W) t :
  tools st !! "summarizer" = Some t ->
  is_sentinel (retrieved_documents st) ->
  summarizer_output st x = (retrieved_documents st, x).
Proof.
  intros Ht Hs. unfold summarizer_output, Tool in *.
  by rewrite Ht, (is_sentinel_truthy _ Hs), (is_sentinel_guard _ Hs).
Qed.

Lemma analyst_output_sentinel (st : AgentState W) (x : Ext W) t :
  tools st !! "analyzer" = Some t ->
  is_sentinel (summarized_content st) ->
  analyst_output st x = (summarized_content st, x).
Proof.
  intros Ht Hs. unfold analyst_output, Tool in *.
  by rewrite Ht, (is_sentinel_truthy _ Hs), (is_sentinel_guard _ Hs).
Qed.

Lemma quality_output_sentinel (st : AgentState W) (x : Ext W) :
  is_sentinel (content_to_format st) ->
  quality_output st x = (content_to_format st, x).
Proof.
  intros Hs. unfold quality_output. cbv zeta.
  destruct (tools st !! "formatter"); [| reflexivity].
  rewrite (is_sentinel_truthy _ Hs). simpl.
  pose proof (is_sentinel_guard _ Hs) as Hg. by rewrite Hg.
Qed.

(** C1, as the code has it. Let [c] be the empty-result marker or a string
    containing [Error], and let the input field of a node hold [c].  The
    summarizer node and the analyst node, when their tool is installed, copy
    [c] unchanged to their output field without calling the tool (the world
    is left as it was); the quality node writes [c] unchanged to
    [final_output]; and the formatter and the citation manager return [c]
    unchanged when it contains [Error]. *)
Theorem sentinel_forwarding
    (c : string) (l : nat) (h : Store W) (x : Ext W) (st : AgentState W) :
  is_sentinel c ->
  h !! l = Some st ->
  (contains "Error" c = true ->
     ContentFormatterTool_run c = c /\ CitationManagerTool_run c = c) /\
  (forall t, tools st !! "summarizer" = Some t -> retrieved_documents st = c ->
     summarizer_agent l (h, x)
     = (Ok (length h),
        (h ++ [set_current_step "summarization_complete"
                 (set_summarized_content c st)], x))) /\
  (forall t, tools st !! "analyzer" = Some t -> summarized_content st = c ->
     analyst_agent l (h, x)
     = (Ok (length h),
        (h ++ [set_current_step "analysis_complete"
                 (set_analysis_results c st)], x))) /\
  (content_to_format st = c ->
     quality_agent l (h, x)
     = (Ok (length h),
        (h ++ [set_current_step "complete" (set_final_output c st)], x))).
Proof.
  intros Hs Hl. split; [| split; [| split]].
  - intros He. split.
    + apply ContentFormatterTool_run_error. by right.
    + apply CitationManagerTool_run_error. by right.
  - intros t Ht <-. rewrite (summarizer_agent_spec l h x st Hl).
    by rewrite (summarizer_output_sentinel st x t Ht Hs).
  - intros t Ht <-. rewrite (analyst_agent_spec l h x st Hl).
    by rewrite (analyst_output_sentinel st x t Ht Hs).
  - intros <-. rewrite (quality_agent_spec l h x st Hl).
    by rewrite (quality_output_sentinel st x Hs).
Qed.

(** *** The content the quality node formats *)

(** C3, as the code has it. The content the quality node formats is
    [analysis_results] when that is non-empty, otherwise
    [summarized_content] when that is non-empty, otherwise
    [retrieved_documents]; what the node writes to [final_output] depends on
    the state only through that content and the tools; and when all three
    fields are empty the final output is the empty string. *)
Theorem final_output_precedence
    (l : nat) (h : Store W) (x : Ext W) (st : AgentState W) :
  h !! l = Some st ->
  (analysis_results st <> "" -> content_to_format st = analysis_results st) /\
  (analysis_results st = "" -> summarized_content st <> "" ->
     content_to_format st = summarized_content st) /\
  (analysis_results st = "" -> summarized_content st = "" ->
     content_to_format st = retrieved_documents st) /\
  quality_agent l (h, x)
  = (Ok (length h),
     (h ++ [set_current_step "complete"
              (set_final_output (quality_output st x).1 st)],
      (quality_output st x).2)) /\
  (forall st2 : AgentState W,
     tools st2 = tools st -> content_to_format st2 = content_to_format st ->
     quality_output st2 x = quality_output st x) /\
  (analysis_results st = "" -> summarized_content st = "" ->
   retrieved_documents st = "" ->
     quality_agent l (h, x)
     = (Ok (length h),
        (h ++ [set_current_step "complete" (set_final_output "" st)], x))).
Proof.
  intros Hl. unfold content_to_format, PyStr.or.
  split; [| split; [| split; [| split; [| split]]]].
  - intros Ha. apply truthy_true in Ha. by rewrite Ha.
  - intros -> Hs. apply truthy_true in Hs. simpl. by rewrite Hs.
  - by intros -> ->.
  - by apply quality_agent_spec.
  - intros st2 Ht Hc. unfold quality_output, content_to_format, PyStr.or.
    by rewrite Ht, Hc.
  - intros Ha Hs Hr. rewrite (quality_agent_spec l h x st Hl).
    unfold quality_output, content_to_format. rewrite Ha, Hs, Hr. simpl.
    by destruct (tools st !! "formatter").
Qed.

End Nodes.

(** ** The executors *)

Section Executors.

Context (W : Type).
Context (genai_generate : string -> string -> W -> Outcome string * W).
Context (str_upper : string -> string).
Context (LANGGRAPH_AVAILABLE : bool).

Local Abbreviation DocumentRetrieverTool_run :=
  (DocumentRetrieverTool_run W str_upper).
Local Abbreviation ContentSummarizerTool_run :=
  (ContentSummarizerTool_run W genai_generate).
Local Abbreviation DocumentAnalyzerTool_run :=
  (DocumentAnalyzerTool_run W genai_generate).
Local Abbreviation make_tools := (make_tools W genai_generate str_upper).
Local Abbreviation LangGraphMultiAgent_kickoff := (LangGraphMultiAgent_kickoff W).
Local Abbreviation get_multiagent_system :=
  (get_multiagent_system W genai_generate str_upper LANGGRAPH_AVAILABLE).

(** Rewrite with an equation after expanding the type aliases on both
    sides. *)
Local Ltac rewrite_spec E :=
  let H := fresh "E" in
  pose proof E as H; unfold Tool, M, Eff, Store in H |- *; rewrite H; clear H.

(** The graph executor, node by node: the five dicts it allocates and the
    [final_output] of the last one. *)
Lemma LangGraphMultiAgent_kickoff_spec
    (ts : gmap string (Tool W)) (inputs : gmap string string)
    (h : Store W) (x : Ext W) :
  let st0 :=
    {| query := default "" (inputs !! "query"); retrieved_documents := "";
       summarized_content := ""; analysis_results := ""; final_output := "";
       current_step := "started"; error := ""; tools := ts |} in
  let o1 := retriever_output st0 x in
  let st1 := set_current_step "retrieval_complete"
               (set_retrieved_documents o1.1 st0) in
  let o2 := summarizer_output st1 o1.2 in
  let st2 := set_current_step "summarization_complete"
               (set_summarized_content o2.1 st1) in
  let o3 := analyst_output st2 o2.2 in
  let st3 := set_current_step "analysis_complete"
               (set_analysis_results o3.1 st2) in
  let o4 := quality_output st3 o3.2 in
  let st4 := set_current_step "complete" (set_final_output o4.1 st3) in
  LangGraphMultiAgent_kickoff ts inputs (h, x)
  = (Ok o4.1, (h ++ [st0; st1; st2; st3; st4], o4.2)).
Proof.
  intros st0 o1 st1 o2 st2 o3 st3 o4 st4.
  unfold LangGraphMultiAgent_kickoff, graph_invoke, try_catch.
  cbv zeta. fold st0.
  repeat progress unfold mbind, SE_bind, state_new.
  rewrite_spec (retriever_agent_spec W (length h) (h ++ [st0]) x st0
                  (list_lookup_middle h [] st0 _ eq_refl)).
  fold o1 st1.
  rewrite_spec (summarizer_agent_spec W _ _ o1.2 st1
                  (list_lookup_middle (h ++ [st0]) [] st1 _ eq_refl)).
  fold o2 st2.
  rewrite_spec (analyst_agent_spec W _ _ o2.2 st2
                  (list_lookup_middle ((h ++ [st0]) ++ [st1]) [] st2 _ eq_refl)).
  fold o3 st3.
  rewrite_spec (quality_agent_spec W _ _ o3.2 st3
                  (list_lookup_middle (((h ++ [st0]) ++ [st1]) ++ [st2]) []
                     st3 _ eq_refl)).
  fold o4 st4. unfold state_get.
  rewrite (list_lookup_middle _ [] st4 _ eq_refl).
  by rewrite <- !app_assoc.
Qed.

(** The graph executor returns, whatever the tools do. *)
Lemma LangGraphMultiAgent_kickoff_returns ts inputs (s : Store W * Ext W) :
  returns (LangGraphMultiAgent_kickoff ts inputs) s.
Proof.
  destruct s as [h x]. eexists _, _. apply LangGraphMultiAgent_kickoff_spec.
Qed.

(** The sequential executor returns, whatever the tools do. *)
Lemma SimpleMultiAgent_kickoff_returns
    (ts : gmap string (Tool W)) inputs (x : Ext W) :
  returns (SimpleMultiAgent_kickoff ts inputs) x.
Proof. apply try_catch_returns. intros e s'. by eexists _, _. Qed.

Lemma kickoff_returns (crew : MultiAgent W) inputs (s : Store W * Ext W) :
  returns (kickoff crew inputs) s.
Proof.
  destruct crew as [ts | ts]; [apply LangGraphMultiAgent_kickoff_returns |].
  destruct s as [h x]. unfold returns, kickoff, lift.
  destruct (SimpleMultiAgent_kickoff_returns ts inputs x) as (a & x' & ->).
  by eexists _, _.
Qed.

(** *** Empty retrieval *)

(** A retrieval output that carries a sentinel ends both executors with that
    output, and no other tool is called. *)
Lemma LangGraphMultiAgent_kickoff_sentinel
    api_key (r : Retriever W) (q : string) (h : Store W) (x x' : Ext W) c :
  DocumentRetrieverTool_run r q x = (Ok c, x') ->
  is_sentinel c ->
  exists h',
    LangGraphMultiAgent_kickoff (make_tools api_key r) {["query" := q]} (h, x)
    = (Ok c, (h', x')).
Proof.
  intros Hrun Hs. eexists.
  rewrite LangGraphMultiAgent_kickoff_spec. rewrite lookup_singleton_eq.
  cbn [default].
  set (st0 := Build_AgentState _ _ _ _ _ _ _ _).
  assert (Ho1 : retriever_output st0 x = (c, x')).
  { unfold retriever_output, run_or.
    change (tools st0) with (make_tools api_key r).
    change (query st0) with q.
    rewrite make_tools_retriever. rewrite_spec Hrun. reflexivity. }
  rewrite Ho1. cbn [fst snd].
  set (st1 := set_current_step _ (set_retrieved_documents c st0)).
  rewrite (summarizer_output_sentinel W st1 x' _
             (make_tools_summarizer W genai_generate str_upper api_key r) Hs).
  cbn [fst snd].
  set (st2 := set_current_step _ (set_summarized_content _ st1)).
  rewrite (analyst_output_sentinel W st2 x' _
             (make_tools_analyzer W genai_generate str_upper api_key r) Hs).
  cbn [fst snd].
  set (st3 := set_current_step _ (set_analysis_results _ st2)).
  assert (Hc : content_to_format st3 = c).
  { unfold content_to_format, PyStr.or.
    change (analysis_results st3) with c.
    by rewrite (is_sentinel_truthy c Hs). }
  rewrite (quality_output_sentinel W st3 x') by (by rewrite Hc).
  rewrite Hc. reflexivity.
Qed.

Lemma SimpleMultiAgent_kickoff_sentinel
    api_key (r : Retriever W) (q : string) (x x' : Ext W) c :
  DocumentRetrieverTool_run r q x = (Ok c, x') ->
  is_sentinel c ->
  SimpleMultiAgent_kickoff (make_tools api_key r) {["query" := q]} x
  = (Ok c, x').
Proof.
  intros Hrun Hs. unfold SimpleMultiAgent_kickoff.
  rewrite lookup_singleton_eq. cbn [default].
  unfold try_catch. unfold mbind at 1. unfold SE_bind at 1.
  unfold tools_index at 1.
  rewrite_spec (make_tools_retriever W genai_generate str_upper api_key r).
  unfold mbind, SE_bind, mret, SE_ret, id. cbn beta iota. rewrite_spec Hrun.
  assert (Hg : contains "Error" c || contains "No relevant documents" c = true).
  { destruct Hs as [-> | ->]; reflexivity. }
  by rewrite Hg.
Qed.

(** C7. When the capability the retrieval tool uses returns the empty
    sequence, the tool returns the empty-result marker; the executor chosen by
    [get_multiagent_system] (and each of the two executors) returns exactly
    that marker; and the world they end in is the one the retrieval call
    left: no prompt was passed to the generation collaborator. *)
Theorem empty_retrieval_short_circuit
    (api_key : string) (r : Retriever W) (f : Search W) (q : string)
    (x : Ext W) (w' : W) :
  first_present [get_relevant_documents r; invoke r; call r] = Some f ->
  f q (coll x) = (Ok [], w') ->
  let x' := {| coll := w'; gen_calls := gen_calls x |} in
  DocumentRetrieverTool_run r q x = (Ok empty_result_marker, x') /\
  (forall use_enhanced h, exists h',
     kickoff (get_multiagent_system api_key r use_enhanced) {["query" := q]}
       (h, x)
     = (Ok empty_result_marker, (h', x'))) /\
  (forall h, exists h',
     LangGraphMultiAgent_kickoff (make_tools api_key r) {["query" := q]} (h, x)
     = (Ok empty_result_marker, (h', x'))) /\
  SimpleMultiAgent_kickoff (make_tools api_key r) {["query" := q]} x
  = (Ok empty_result_marker, x') /\
  gen_calls x' = gen_calls x.
Proof.
  intros Hf Hq x'.
  assert (Hrun : DocumentRetrieverTool_run r q x = (Ok empty_result_marker, x')).
  { rewrite (DocumentRetrieverTool_run_via W str_upper r f q x Hf).
    unfold retrieval_via. by rewrite Hq. }
  assert (Hs : is_sentinel empty_result_marker) by (by left).
  split; [exact Hrun |]. split; [| split; [| split]].
  - intros use_enhanced h.
    unfold get_multiagent_system, create_langgraph_multiagent,
      create_simple_workflow.
    destruct (use_enhanced && LANGGRAPH_AVAILABLE) eqn:Hflag.
    + apply andb_true_iff in Hflag as [_ ->]. cbn [negb kickoff].
      by apply LangGraphMultiAgent_kickoff_sentinel.
    + exists h. unfold kickoff, lift.
      by rewrite (SimpleMultiAgent_kickoff_sentinel api_key r q x x' _ Hrun Hs).
  - intros h. by apply LangGraphMultiAgent_kickoff_sentinel.
  - by apply SimpleMultiAgent_kickoff_sentinel.
  - reflexivity.
Qed.

(** *** Where the two executors agree *)

Lemma DocumentRetrieverTool_run_truthy (r : Retriever W) q x c x' :
  DocumentRetrieverTool_run r q x = (Ok c, x') -> truthy c = true.
Proof.
  rewrite (DocumentRetrieverTool_run_cases W str_upper r q x).
  destruct (first_present _) as [f|]; [| by intros [= <- _]].
  unfold retrieval_via.
  destruct (f q (coll x)) as [[[|d ds]|e] w']; intros [= <- _]; try done.
  by rewrite render_documents_acc.
Qed.

Lemma ContentSummarizerTool_run_truthy api_key text (x : Ext W) c x' :
  ContentSummarizerTool_run api_key text x = (Ok c, x') -> truthy c = true.
Proof.
  unfold ContentSummarizerTool_run, try_catch, mbind, SE_bind.
  destruct (generate_content _ _ _ _ _) as [[v|e] x'']; by intros [= <- _].
Qed.

Lemma DocumentAnalyzerTool_run_truthy api_key text (x : Ext W) c x' :
  DocumentAnalyzerTool_run api_key text x = (Ok c, x') -> truthy c = true.
Proof.
  unfold DocumentAnalyzerTool_run, try_catch, mbind, SE_bind.
  destruct (generate_content _ _ _ _ _) as [[v|e] x'']; by intros [= <- _].
Qed.

Lemma guard_open (c : string) :
  contains "Error" c || contains "No relevant documents" c = false ->
  negb (contains "Error" c) && negb (contains "No relevant documents" c) = true.
Proof. intros [-> ->]%orb_false_iff. reflexivity. Qed.

(** The formatter followed by the citation manager, as the quality node and
    the sequential executor both end: on a content carrying [Error] nothing
    is added. *)
Lemma format_and_cite_error (c : string) :
  contains "Error" c = true ->
  CitationManagerTool_run (ContentFormatterTool_run c) = c.
Proof.
  intros He. rewrite (ContentFormatterTool_run_error c) by (by right).
  apply CitationManagerTool_run_error. by right.
Qed.

(** When neither the retrieval output nor the summary carries a sentinel,
    and the analysis does not carry the phrase [No relevant documents]
    without the token [Error], the two executors make the same three calls
    and return the same text. *)
Lemma executors_agree_on_clean_run
    api_key (r : Retriever W) (q : string) (h : Store W)
    (x x1 x2 x3 : Ext W) (R S A : string) :
  DocumentRetrieverTool_run r q x = (Ok R, x1) ->
  contains "Error" R || contains "No relevant documents" R = false ->
  ContentSummarizerTool_run api_key R x1 = (Ok S, x2) ->
  contains "Error" S || contains "No relevant documents" S = false ->
  DocumentAnalyzerTool_run api_key S x2 = (Ok A, x3) ->
  contains "No relevant documents" A = false \/ contains "Error" A = true ->
  (exists h',
     LangGraphMultiAgent_kickoff (make_tools api_key r) {["query" := q]} (h, x)
     = (Ok (CitationManagerTool_run (ContentFormatterTool_run A)), (h', x3))) /\
  SimpleMultiAgent_kickoff (make_tools api_key r) {["query" := q]} x
  = (Ok (CitationManagerTool_run (ContentFormatterTool_run A)), x3).
Proof.
  intros HR HgR HS HgS HA HgA.
  pose proof (DocumentRetrieverTool_run_truthy _ _ _ _ _ HR) as HtR.
  pose proof (ContentSummarizerTool_run_truthy _ _ _ _ _ HS) as HtS.
  pose proof (DocumentAnalyzerTool_run_truthy _ _ _ _ _ HA) as HtA.
  split.
  - rewrite LangGraphMultiAgent_kickoff_spec.
    rewrite lookup_singleton_eq. cbn [default].
    set (st0 := Build_AgentState _ _ _ _ _ _ _ _).
    assert (Ho1 : retriever_output st0 x = (R, x1)).
    { unfold retriever_output, run_or.
      change (tools st0) with (make_tools api_key r).
      change (query st0) with q.
      rewrite make_tools_retriever. rewrite_spec HR. reflexivity. }
    rewrite Ho1. cbn [fst snd].
    set (st1 := set_current_step _ (set_retrieved_documents R st0)).
    assert (Ho2 : summarizer_output st1 x1 = (S, x2)).
    { unfold summarizer_output, run_or.
      change (tools st1) with (make_tools api_key r).
      change (retrieved_documents st1) with R.
      rewrite make_tools_summarizer, HtR, (guard_open R HgR).
      rewrite_spec HS. reflexivity. }
    rewrite Ho2. cbn [fst snd].
    set (st2 := set_current_step _ (set_summarized_content S st1)).
    assert (Ho3 : analyst_output st2 x2 = (A, x3)).
    { unfold analyst_output, run_or.
      change (tools st2) with (make_tools api_key r).
      change (summarized_content st2) with S.
      rewrite make_tools_analyzer, HtS, (guard_open S HgS).
      rewrite_spec HA. reflexivity. }
    rewrite Ho3. cbn [fst snd].
    set (st3 := set_current_step _ (set_analysis_results A st2)).
    assert (Ho4 : quality_output st3 x3
                  = (CitationManagerTool_run (ContentFormatterTool_run A), x3)).
    { assert (Hc : content_to_format st3 = A).
      { unfold content_to_format, PyStr.or.
        change (analysis_results st3) with A. by rewrite HtA. }
      unfold quality_output. cbv zeta. rewrite Hc, HtA.
      change (tools st3) with (make_tools api_key r).
      rewrite make_tools_formatter, make_tools_citations.
      destruct (contains "Error" A) eqn:He.
      - cbn [negb andb fst snd]. by rewrite (format_and_cite_error A He).
      - destruct HgA as [-> | ?]; [| discriminate]. reflexivity. }
    rewrite Ho4. cbn [fst snd]. by eexists.
  - unfold SimpleMultiAgent_kickoff.
    rewrite lookup_singleton_eq. cbn [default].
    unfold try_catch, tools_index.
    rewrite_spec (make_tools_retriever W genai_generate str_upper api_key r).
    rewrite_spec (make_tools_summarizer W genai_generate str_upper api_key r).
    rewrite_spec (make_tools_analyzer W genai_generate str_upper api_key r).
    rewrite_spec (make_tools_formatter W genai_generate str_upper api_key r).
    rewrite_spec (make_tools_citations W genai_generate str_upper api_key r).
    unfold mbind, SE_bind, mret, SE_ret, id. cbn beta iota.
    rewrite_spec HR. rewrite HgR. rewrite_spec HS. rewrite_spec HA.
    reflexivity.
Qed.

End Executors.

(** ** The multi-document coordinator *)

Lemma dict_set_keys_fresh (k v : string) (d : list (string * string)) :
  k ∉ d.*1 -> (dict_set k v d).*1 = d.*1 ++ [k].
Proof.
  induction d as [|[k' v'] d IH]; intros Hk; [reflexivity |].
  cbn [dict_set]. rewrite fmap_cons in Hk. cbn [fst] in Hk.
  apply not_elem_of_cons in Hk as [Hne Hk].
  destruct (decide (k = k')) as [-> | _]; [done |].
  rewrite !fmap_cons. cbn [fst app]. by rewrite (IH Hk).
Qed.

Lemma dict_get_set_eq (k v : string) (d : list (string * string)) :
  dict_get k (dict_set k v d) = Some v.
Proof.
  induction d as [|[k' v'] d IH]; cbn [dict_set dict_get].
  - by destruct (decide (k = k)).
  - destruct (decide (k = k')) as [-> | Hne]; cbn [dict_get].
    + by destruct (decide (k' = k')).
    + by destruct (decide (k = k')).
Qed.

Lemma dict_get_set_ne (k k' v : string) (d : list (string * string)) :
  k <> k' -> dict_get k' (dict_set k v d) = dict_get k' d.
Proof.
  intros Hne. induction d as [|[k0 v0] d IH]; cbn [dict_set dict_get].
  - by destruct (decide (k' = k)) as [-> | _].
  - destruct (decide (k = k0)) as [-> | Hk]; cbn [dict_get].
    + by destruct (decide (k' = k0)) as [-> | _].
    + destruct (decide (k' = k0)); [reflexivity | exact IH].
Qed.

Lemma dict_get_None (k : string) (d : list (string * string)) :
  k ∉ d.*1 -> dict_get k d = None.
Proof.
  induction d as [|[k' v'] d IH]; intros Hk; [reflexivity |].
  rewrite fmap_cons in Hk. cbn [fst] in Hk.
  apply not_elem_of_cons in Hk as [Hne Hk]. cbn [dict_get].
  destruct (decide (k = k')); [done | by apply IH].
Qed.

Section Coordinator.

Context (W : Type).
Context (genai_generate : string -> string -> W -> Outcome string * W).
Context (str_upper : string -> string).
Context (LANGGRAPH_AVAILABLE : bool).
Context (document_retrievers : gmap string (Retriever W)).
Context (query_ api_key : string).

Local Abbreviation DocumentRetrieverTool_run :=
  (DocumentRetrieverTool_run W str_upper).
Local Abbreviation get_multiagent_system :=
  (get_multiagent_system W genai_generate str_upper LANGGRAPH_AVAILABLE).
Local Abbreviation process_document :=
  (process_document W genai_generate str_upper LANGGRAPH_AVAILABLE
     document_retrievers query_ api_key).
Local Abbreviation process_documents :=
  (process_documents W genai_generate str_upper LANGGRAPH_AVAILABLE
     document_retrievers query_ api_key).

Lemma show_sources_returns (r : Retriever W) (x : Ext W) :
  returns (show_sources W r query_) x.
Proof. apply try_catch_returns. intros e s'. by eexists _, _. Qed.

(** A target without a retriever is skipped. *)
Lemma process_document_skip doc_name acc (s : Store W * Ext W) :
  document_retrievers !! doc_name = None ->
  process_document doc_name acc s = (Ok acc, s).
Proof. intros Hr. unfold process_document. by rewrite Hr. Qed.

(** A target with a retriever gets what its executor returned; the round
    does not raise. *)
Lemma process_document_slot doc_name (r : Retriever W) acc
    (s : Store W * Ext W) :
  document_retrievers !! doc_name = Some r ->
  exists v s1 s',
    kickoff (get_multiagent_system api_key r true) {["query" := query_]} s
    = (Ok v, s1) /\
    process_document doc_name acc s = (Ok (dict_set doc_name v acc), s').
Proof.
  intros Hr. unfold process_document. rewrite Hr.
  destruct (kickoff_returns W (get_multiagent_system api_key r true)
              {["query" := query_]} s) as (v & [h1 x1] & Hk).
  destruct (show_sources_returns r x1) as ([] & x2 & Hshow).
  exists v, (h1, x1), (h1, x2). split; [exact Hk |].
  unfold try_catch, mbind, SE_bind, lift. rewrite Hk.
  unfold Eff in *. by rewrite Hshow.
Qed.

(** An executor whose retriever raises on every collaborator state returns
    the retrieval tool's error text. *)
Lemma kickoff_retrieval_raises (r : Retriever W) (f : Search W)
    (reason : string) (s : Store W * Ext W) :
  first_present [get_relevant_documents r; invoke r; call r] = Some f ->
  (forall w, exists w', f query_ w = (Raise reason, w')) ->
  exists s',
    kickoff (get_multiagent_system api_key r true) {["query" := query_]} s
    = (Ok ("Error retrieving documents: " +:+ reason), s').
Proof.
  intros Hf Hraise. destruct s as [h x].
  destruct (Hraise (coll x)) as [w' Hw].
  assert (Hrun : DocumentRetrieverTool_run r query_ x
                 = (Ok ("Error retrieving documents: " +:+ reason),
                    {| coll := w'; gen_calls := gen_calls x |})).
  { rewrite (DocumentRetrieverTool_run_via W str_upper r f query_ x Hf).
    unfold retrieval_via. by rewrite Hw. }
  assert (Hs : is_sentinel ("Error retrieving documents: " +:+ reason))
    by (by right).
  unfold get_multiagent_system, create_langgraph_multiagent,
    create_simple_workflow.
  destruct (true && LANGGRAPH_AVAILABLE) eqn:Hflag.
  - cbn [andb] in Hflag. rewrite Hflag. cbn [negb kickoff].
    destruct (LangGraphMultiAgent_kickoff_sentinel W genai_generate str_upper
                api_key r query_ h x _ _ Hrun Hs) as [h' Hk].
    by eexists.
  - unfold kickoff, lift.
    rewrite (SimpleMultiAgent_kickoff_sentinel W genai_generate str_upper
               api_key r query_ x _ _ Hrun Hs).
    by eexists.
Qed.

Lemma process_documents_cons d rest acc :
  process_documents (d :: rest) acc
  = (acc' ← process_document d acc; process_documents rest acc').
Proof. reflexivity. Qed.

(** The loop over the targets, from any responses collected so far. *)
Lemma process_documents_inv (selected_docs : list string) :
  forall (acc : list (string * string)) (s : Store W * Ext W),
  NoDup selected_docs ->
  (forall d, d ∈ selected_docs -> d ∉ acc.*1) ->
  exists results s',
    process_documents selected_docs acc s = (Ok results, s') /\
    results.*1
    = acc.*1 ++ filter (fun d => is_Some (document_retrievers !! d))
                  selected_docs /\
    (forall d, d ∉ selected_docs -> dict_get d results = dict_get d acc) /\
    (forall d r f reason,
       d ∈ selected_docs ->
       document_retrievers !! d = Some r ->
       first_present [get_relevant_documents r; invoke r; call r] = Some f ->
       (forall w, exists w', f query_ w = (Raise reason, w')) ->
       dict_get d results = Some ("Error retrieving documents: " +:+ reason)).
Proof.
  induction selected_docs as [|d rest IH]; intros acc s Hnd Hfresh.
  - exists acc, s. split; [reflexivity |]. split.
    + by rewrite filter_nil, app_nil_r.
    + split; [done |]. intros d r f reason Hd. by apply elem_of_nil in Hd.
  - apply NoDup_cons in Hnd as [Hd Hnd].
    rewrite process_documents_cons.
    destruct (document_retrievers !! d) as [r|] eqn:Hr.
    + destruct (process_document_slot d r acc s Hr)
        as (v & s1 & s2 & Hk & Hround).
      assert (Hkeys : (dict_set d v acc).*1 = acc.*1 ++ [d]).
      { apply dict_set_keys_fresh, Hfresh. by left. }
      destruct (IH (dict_set d v acc) s2 Hnd) as (results & s' & Hrun & Hk' & Hold & Herr).
      { intros d' Hd'. rewrite Hkeys. intros [Hin | ->%list_elem_of_singleton]%elem_of_app.
        - apply (Hfresh d'); [by right | exact Hin].
        - done. }
      exists results, s'. split; [| split; [| split]].
      * unfold mbind, SE_bind. by rewrite Hround.
      * rewrite Hk', Hkeys, filter_cons_True by (by rewrite Hr).
        by rewrite <- app_assoc.
      * intros d' [Hne Hd']%not_elem_of_cons.
        rewrite (Hold d' Hd'). by apply dict_get_set_ne.
      * intros d' r' f reason [-> | Hd']%elem_of_cons Hr' Hf Hraise.
        -- rewrite (Hold d Hd), dict_get_set_eq. f_equal.
           assert (r' = r) as -> by congruence.
           destruct (kickoff_retrieval_raises r f reason s Hf Hraise)
             as [s'' Hk''].
           congruence.
        -- by apply (Herr d' r' f reason).
    + destruct (IH acc s Hnd) as (results & s' & Hrun & Hk' & Hold & Herr).
      { intros d' Hd'. apply Hfresh. by right. }
      exists results, s'. split; [| split; [| split]].
      * unfold mbind, SE_bind.
        by rewrite (process_document_skip d acc s Hr).
      * rewrite Hk', filter_cons_False; [done |].
        rewrite Hr. by intros [? ?].
      * intros d' [Hne Hd']%not_elem_of_cons. by apply Hold.
      * intros d' r' f reason [-> | Hd']%elem_of_cons Hr' Hf Hraise.
        -- congruence.
        -- by apply (Herr d' r' f reason).
Qed.

(** C5, as the code has it. For distinct targets the coordinator does not
    raise and handles every target: the result set has one slot for each
    target that has a retriever, in the order of the target list, and none for
    a target without a retriever; and the slot of a target whose retrieval
    raises holds the text [Error retrieving documents: ] followed by the
    reason of the failure. *)
Theorem multi_document_isolation_and_order
    (selected_docs : list string) (s : Store W * Ext W) :
  NoDup selected_docs ->
  exists results s',
    process_multi_document_query W genai_generate str_upper
      LANGGRAPH_AVAILABLE document_retrievers query_ selected_docs api_key s
    = (Ok results, s') /\
    results.*1
    = filter (fun d => is_Some (document_retrievers !! d)) selected_docs /\
    (forall d, document_retrievers !! d = None -> dict_get d results = None) /\
    (forall d r f reason,
       d ∈ selected_docs ->
       document_retrievers !! d = Some r ->
       first_present [get_relevant_documents r; invoke r; call r] = Some f ->
       (forall w, exists w', f query_ w = (Raise reason, w')) ->
       dict_get d results = Some ("Error retrieving documents: " +:+ reason)).
Proof.
  intros Hnd.
  destruct (process_documents_inv selected_docs [] s Hnd)
    as (results & s' & Hrun & Hkeys & _ & Herr).
  { intros d _. apply not_elem_of_nil. }
  exists results, s'. split; [exact Hrun |]. split; [exact Hkeys |].
  split; [| exact Herr].
  intros d Hr. apply dict_get_None. rewrite Hkeys. cbn [app fmap list_fmap].
  intros [Hsome _]%list_elem_of_filter. cbn beta in Hsome.
  rewrite Hr in Hsome. by destruct Hsome.
Qed.

End Coordinator.

(** * The scenarios, evaluated *)

Import Scenario.

(** The formatter and the citation manager wrap the empty-result marker: it
    carries no [Error], so neither tool forwards it unchanged. *)
Lemma formatter_wraps_empty_result_marker :
  ContentFormatterTool_run empty_result_marker <> empty_result_marker /\
  CitationManagerTool_run empty_result_marker <> empty_result_marker.
Proof. split; vm_compute; discriminate. Qed.

Lemma sentinel_forwarding_witness :
  is_sentinel empty_result_marker /\
  [st_no_results] !! 0 = Some st_no_results /\
  summarizer_agent unit 0 ([st_no_results], x0)
  = (Ok 1,
     ([st_no_results;
       set_current_step "summarization_complete"
         (set_summarized_content empty_result_marker st_no_results)], x0)).
Proof.
  split; [by left |]. split; [reflexivity |].
  destruct (sentinel_forwarding unit empty_result_marker 0 [st_no_results]
              x0 st_no_results (or_introl eq_refl) eq_refl)
    as (_ & Hsum & _ & _).
  exact (Hsum (ContentSummarizerTool_run unit gen_ok "key") eq_refl eq_refl).
Defined.

(** With all three content fields empty the quality node writes the empty
    string to [final_output], not the empty-result marker. *)
Lemma quality_agent_all_empty :
  exists st',
    quality_agent unit 0 ([st_started], x0) = (Ok 1, ([st_started; st'], x0)) /\
    final_output st' = "" /\
    final_output st' <> empty_result_marker.
Proof.
  eexists. split; [vm_compute; reflexivity |]. split; [reflexivity |].
  discriminate.
Qed.

Lemma final_output_precedence_witness :
  [st_no_results] !! 0 = Some st_no_results /\
  content_to_format st_no_results = analysis_results st_no_results.
Proof.
  split; [reflexivity |].
  destruct (final_output_precedence unit 0 [st_no_results] x0 st_no_results
              eq_refl) as (Hfirst & _).
  apply Hfirst. discriminate.
Defined.

Lemma generation_failure_witness :
  gen_quota "key" (summary_prompt_head +:+ "text" +:+ summary_prompt_tail) tt
  = (Raise "quota exceeded", tt) /\
  exists x',
    ContentSummarizerTool_run unit gen_quota "key" "text" x0
    = (Ok "Error generating summary: quota exceeded", x').
Proof.
  split; [reflexivity |].
  destruct (generation_failure_becomes_error_marker unit gen_quota
              "key" "text" x0) as (Hsum & _).
  destruct (Hsum "quota exceeded" tt eq_refl) as (x' & Hrun & _).
  by exists x'.
Defined.

(** C2 at a failing input. The retriever returns two chunks and every
    generation call fails: the graph executor relays the summarizer's error
    text, the sequential executor sends that text to the analyzer and returns
    the analyzer's error text. *)
Theorem executors_differ_when_generation_fails :
  let ts := make_tools unit gen_quota ascii_upper "key" retriever_bio in
  let inputs : gmap string string := {["query" := "What is the main topic?"]} in
  (LangGraphMultiAgent_kickoff unit ts inputs ([], x0)).1
  = Ok "Error generating summary: quota exceeded" /\
  (SimpleMultiAgent_kickoff ts inputs x0).1
  = Ok "Error analyzing content: quota exceeded" /\
  (LangGraphMultiAgent_kickoff unit ts inputs ([], x0)).1
  <> (SimpleMultiAgent_kickoff ts inputs x0).1 /\
  length (gen_calls (LangGraphMultiAgent_kickoff unit ts inputs ([], x0)).2.2)
  = 1 /\
  length (gen_calls (SimpleMultiAgent_kickoff ts inputs x0).2) = 2.
Proof. vm_compute. repeat split; discriminate. Qed.

(** Target [beta.pdf] has a retriever that raises: its slot holds the
    retrieval tool's error text, which does not name the target; and in a
    registry without a retriever for [beta.pdf] the target has no slot. *)
Lemma failing_target_slot_does_not_name_target :
  (exists results s',
     process_multi_document_query unit gen_ok ascii_upper true registry
       "What is the main topic?" targets "key" ([], x0)
     = (Ok results, s') /\
     dict_get "beta.pdf" results = Some "Error retrieving documents: boom" /\
     contains "beta.pdf" "Error retrieving documents: boom" = false) /\
  (exists results s',
     process_multi_document_query unit gen_ok ascii_upper true registry_gap
       "What is the main topic?" targets "key" ([], x0)
     = (Ok results, s') /\
     results.*1 = ["alpha.pdf"; "gamma.pdf"] /\
     dict_get "beta.pdf" results = None).
Proof.
  split; eexists _, _;
    (split; [vm_compute; reflexivity |]); split; reflexivity.
Qed.

Lemma multi_document_witness :
  NoDup targets /\
  exists results s',
    process_multi_document_query unit gen_ok ascii_upper true registry
      "What is the main topic?" targets "key" ([], x0)
    = (Ok results, s') /\
    results.*1 = ["alpha.pdf"; "beta.pdf"; "gamma.pdf"] /\
    dict_get "beta.pdf" results = Some "Error retrieving documents: boom".
Proof.
  assert (Hnd : NoDup targets)
    by (apply (bool_decide_unpack (NoDup targets)); vm_compute; exact I).
  assert (Hin : "beta.pdf" ∈ targets)
    by (apply (bool_decide_unpack ("beta.pdf" ∈ targets)); vm_compute; exact I).
  split; [exact Hnd |].
  destruct (multi_document_isolation_and_order unit gen_ok ascii_upper true
              registry "What is the main topic?" "key" targets ([], x0) Hnd)
    as (results & s' & Hrun & Hkeys & _ & Herr).
  exists results, s'. split; [exact Hrun |]. split; [exact Hkeys |].
  apply (Herr "beta.pdf" retriever_boom search_boom "boom" Hin eq_refl eq_refl).
  intros w. by exists w.
Defined.

Lemma empty_retrieval_witness :
  search_nothing "xyzzy123nonsense" (coll x0) = (Ok [], tt) /\
  SimpleMultiAgent_kickoff
    (make_tools unit gen_ok ascii_upper "key" retriever_nothing)
    {["query" := "xyzzy123nonsense"]} x0
  = (Ok empty_result_marker, x0).
Proof.
  split; [reflexivity |].
  destruct (empty_retrieval_short_circuit unit gen_ok ascii_upper true "key"
              retriever_nothing search_nothing "xyzzy123nonsense" x0 tt
              eq_refl eq_refl) as (_ & _ & _ & Hsimple & _).
  exact Hsimple.
Defined.

Lemma copy_on_write_witness :
  [st_started] !! 0 = Some st_started /\
  copies_on_write unit (retriever_agent unit) Fretrieved_documents 0
    [st_started] x0 st_started.
Proof.
  split; [reflexivity |].
  destruct (agent_nodes_copy_on_write unit 0 [st_started] x0 st_started eq_refl)
    as (Hret & _).
  exact Hret.
Defined.

Lemma source_attribution_witness :
  search_bio "What is the main topic?" (coll x0) = (Ok [bio_chunk; bare_chunk], tt) /\
  [bio_chunk; bare_chunk] !! 0 = Some bio_chunk /\
  exists out,
    DocumentRetrieverTool_run unit ascii_upper retriever_bio
      "What is the main topic?" x0
    = (Ok out, x0) /\
    contains "📄 DOCUMENT 1 - bio.txt (" out = true.
Proof.
  split; [reflexivity |]. split; [reflexivity |].
  destruct (source_file_surfaces_in_retrieval_output unit ascii_upper
              retriever_bio search_bio "What is the main topic?" x0
              [bio_chunk; bare_chunk] tt 0 bio_chunk eq_refl eq_refl eq_refl)
    as (out & Hrun & Hsome & _).
  exists out. split; [exact Hrun |].
  exact (proj1 (Hsome "bio.txt" eq_refl)).
Defined.

Lemma content_preservation_witness :
  "Plants." <> "" /\
  contains "Error" "Plants." = false /\
  contains "Plants." (ContentFormatterTool_run "Plants.") = true /\
  contains "Plants." (CitationManagerTool_run "Plants.") = true.
Proof.
  split; [discriminate |]. split; [reflexivity |].
  destruct (formatter_and_citations_preserve_content unit gen_ok ascii_upper
              "Plants." "key" retriever_bio ltac:(discriminate) eq_refl)
    as ((_ & Hfmt) & (_ & Hcit) & _).
  by split.
Defined.

(** * Further properties of the pipeline *)

(** ** Substrings across a separator *)

(** A needle that has no [ch] starts a text ending in [ch] and more only if
    it starts the part before [ch]. *)
Lemma startswith_sep (ch x : ascii) (n a b : string) :
  x <> ch -> mentions ch n = false ->
  startswith (String x n) (a +:+ String ch b) = startswith (String x n) a.
Proof.
  revert x a. induction n as [|x' n IH]; intros x a Hx Hn.
  - destruct a as [|y a]; simpl.
    + by destruct (decide (x = ch)).
    + destruct (decide (x = y)); [| reflexivity]. by destruct a.
  - simpl in Hn. apply orb_false_iff in Hn as [Hx' Hn].
    apply bool_decide_eq_false in Hx'.
    destruct a as [|y a].
    + simpl. by destruct (decide (x = ch)).
    + change (startswith (String x (String x' n)) (String y a +:+ String ch b))
        with (if decide (x = y)
              then startswith (String x' n) (a +:+ String ch b) else false).
      change (startswith (String x (String x' n)) (String y a))
        with (if decide (x = y) then startswith (String x' n) a else false).
      destruct (decide (x = y)); [by apply IH | reflexivity].
Qed.

(** A needle that has no [ch] occurs in [a ch b] only inside [a] or inside
    [b]. *)
Lemma contains_sep (ch x : ascii) (n a b : string) :
  x <> ch -> mentions ch n = false ->
  contains (String x n) (a +:+ String ch b)
  = contains (String x n) a || contains (String x n) b.
Proof.
  intros Hx Hn. induction a as [|y a IH].
  - change ("" +:+ String ch b) with (String ch b).
    rewrite (contains_unfold _ (String ch b)), (contains_unfold _ "").
    simpl. by destruct (decide (x = ch)).
  - change (String y a +:+ String ch b) with (String y (a +:+ String ch b)).
    rewrite (contains_unfold _ (String y (a +:+ String ch b))).
    rewrite (contains_unfold _ (String y a)).
    rewrite IH.
    change (String y (a +:+ String ch b)) with (String y a +:+ String ch b).
    rewrite (startswith_sep ch x n (String y a) b Hx Hn).
    by rewrite orb_assoc.
Qed.

(** A needle without line feed occurs in a text wrapped between a head that
    ends in a line feed and a tail that starts with one only inside one of
    the three parts. *)
Lemma contains_wrapped (x : ascii) (n H c T : string) :
  x <> "010"%char -> mentions "010"%char n = false ->
  contains (String x n) ((H +:+ LF) +:+ c +:+ (LF +:+ T))
  = contains (String x n) H || contains (String x n) c
    || contains (String x n) T.
Proof.
  intros Hx Hn.
  replace ((H +:+ LF) +:+ c +:+ (LF +:+ T))
    with (H +:+ String "010"%char (c +:+ String "010"%char T))
    by (by rewrite append_assoc).
  rewrite (contains_sep _ x n H _ Hx Hn), (contains_sep _ x n c T Hx Hn).
  by rewrite orb_assoc.
Qed.

(** A needle without line feed occurs after a head that ends in a line feed
    only inside the head or inside what follows. *)
Lemma contains_headed (x : ascii) (n H c : string) :
  x <> "010"%char -> mentions "010"%char n = false ->
  contains (String x n) ((H +:+ LF) +:+ c)
  = contains (String x n) H || contains (String x n) c.
Proof.
  intros Hx Hn.
  replace ((H +:+ LF) +:+ c) with (H +:+ String "010"%char c)
    by (by rewrite append_assoc).
  apply (contains_sep _ x n H c Hx Hn).
Qed.

(** ** Sentinel tests through the wrappers *)

Lemma contains_wrapped_clean (x : ascii) (n H c T : string) :
  x <> "010"%char -> mentions "010"%char n = false ->
  contains (String x n) H = false -> contains (String x n) T = false ->
  contains (String x n) ((H +:+ LF) +:+ c +:+ (LF +:+ T))
  = contains (String x n) c.
Proof.
  intros Hx Hn HH HT. rewrite (contains_wrapped x n H c T Hx Hn), HH, HT.
  by rewrite orb_false_r.
Qed.

Lemma contains_headed_clean (x : ascii) (n H c : string) :
  x <> "010"%char -> mentions "010"%char n = false ->
  contains (String x n) H = false ->
  contains (String x n) ((H +:+ LF) +:+ c) = contains (String x n) c.
Proof.
  intros Hx Hn HH. by rewrite (contains_headed x n H c Hx Hn), HH.
Qed.

Lemma formatter_wrapping (n0 : string) (x : ascii) (c : string) :
  x <> "010"%char -> mentions "010"%char n0 = false ->
  contains (String x n0) ("✨ PROFESSIONALLY FORMATTED RESPONSE:" +:+ LF) = false ->
  contains (String x n0) (rest_of formatter_tail) = false ->
  contains (String x n0) (formatter_head +:+ c +:+ formatter_tail)
  = contains (String x n0) c.
Proof.
  intros Hx Hn HH HT.
  change (formatter_head +:+ c +:+ formatter_tail)
    with ((("✨ PROFESSIONALLY FORMATTED RESPONSE:" +:+ LF) +:+ LF) +:+ c
          +:+ (LF +:+ rest_of formatter_tail)).
  by apply contains_wrapped_clean.
Qed.

Lemma citation_wrapping (n0 : string) (x : ascii) (c : string) :
  x <> "010"%char -> mentions "010"%char n0 = false ->
  contains (String x n0) ("✅ CITATION MANAGEMENT APPLIED:" +:+ LF) = false ->
  contains (String x n0) (rest_of citation_tail) = false ->
  contains (String x n0) (citation_head +:+ c +:+ citation_tail)
  = contains (String x n0) c.
Proof.
  intros Hx Hn HH HT.
  change (citation_head +:+ c +:+ citation_tail)
    with ((("✅ CITATION MANAGEMENT APPLIED:" +:+ LF) +:+ LF) +:+ c
          +:+ (LF +:+ rest_of citation_tail)).
  by apply contains_wrapped_clean.
Qed.

Lemma ContentFormatterTool_run_keeps_Error (c : string) :
  contains "Error" (ContentFormatterTool_run c) = contains "Error" c.
Proof.
  unfold ContentFormatterTool_run.
  destruct (negb (truthy c) || contains "Error" c); [reflexivity |].
  by apply formatter_wrapping.
Qed.

Lemma ContentFormatterTool_run_keeps_phrase (c : string) :
  contains "No relevant documents" (ContentFormatterTool_run c)
  = contains "No relevant documents" c.
Proof.
  unfold ContentFormatterTool_run.
  destruct (negb (truthy c) || contains "Error" c); [reflexivity |].
  by apply formatter_wrapping.
Qed.

Lemma CitationManagerTool_run_keeps_Error (c : string) :
  contains "Error" (CitationManagerTool_run c) = contains "Error" c.
Proof.
  unfold CitationManagerTool_run.
  destruct (negb (truthy c) || contains "Error" c); [reflexivity |].
  by apply citation_wrapping.
Qed.

Lemma CitationManagerTool_run_keeps_phrase (c : string) :
  contains "No relevant documents" (CitationManagerTool_run c)
  = contains "No relevant documents" c.
Proof.
  unfold CitationManagerTool_run.
  destruct (negb (truthy c) || contains "Error" c); [reflexivity |].
  by apply citation_wrapping.
Qed.

(** X1. The formatter and the citation manager neither create nor remove a
    sentinel: their result carries the token [Error] exactly when the content
    does, and the phrase [No relevant documents] exactly when the content
    does. *)
Theorem wrappers_keep_sentinel_tests (c : string) :
  contains "Error" (ContentFormatterTool_run c) = contains "Error" c /\
  contains "No relevant documents" (ContentFormatterTool_run c)
  = contains "No relevant documents" c /\
  contains "Error" (CitationManagerTool_run c) = contains "Error" c /\
  contains "No relevant documents" (CitationManagerTool_run c)
  = contains "No relevant documents" c.
Proof.
  split; [apply ContentFormatterTool_run_keeps_Error |].
  split; [apply ContentFormatterTool_run_keeps_phrase |].
  split; [apply CitationManagerTool_run_keeps_Error |].
  apply CitationManagerTool_run_keeps_phrase.
Qed.

Lemma format_and_cite_clean (c : string) :
  c <> "" -> contains "Error" c = false ->
  CitationManagerTool_run (ContentFormatterTool_run c)
  = citation_head +:+ (formatter_head +:+ c +:+ formatter_tail)
      +:+ citation_tail.
Proof.
  intros Hne He.
  assert (Hf : contains "Error" (ContentFormatterTool_run c) = false)
    by (by rewrite ContentFormatterTool_run_keeps_Error).
  rewrite (ContentFormatterTool_run_wraps c Hne He) in Hf |- *.
  by apply CitationManagerTool_run_wraps.
Qed.

(** X2. On a non-empty content without the token [Error], the formatter
    followed by the citation manager (the end of both executors) gives the
    citation head, the formatter head, the content, the formatter tail and the
    citation tail, in that order: the second tool never takes the first
    tool's result for an error. *)
Theorem format_then_cite_wraps_twice (c : string) :
  c <> "" -> contains "Error" c = false ->
  CitationManagerTool_run (ContentFormatterTool_run c)
  = citation_head +:+ (formatter_head +:+ c +:+ formatter_tail)
      +:+ citation_tail.
Proof. apply format_and_cite_clean. Qed.

(** ** A run without sentinels *)

Section CleanRun.

Context (W : Type).
Context (genai_generate : string -> string -> W -> Outcome string * W).
Context (str_upper : string -> string).

Local Abbreviation DocumentRetrieverTool_run :=
  (DocumentRetrieverTool_run W str_upper).
Local Abbreviation ContentSummarizerTool_run :=
  (ContentSummarizerTool_run W genai_generate).
Local Abbreviation DocumentAnalyzerTool_run :=
  (DocumentAnalyzerTool_run W genai_generate).
Local Abbreviation make_tools := (make_tools W genai_generate str_upper).

Lemma carries_sentinel_summary (t : string) :
  carries_sentinel ("📝 SUMMARY:" +:+ LF +:+ t) = carries_sentinel t.
Proof.
  unfold carries_sentinel.
  change ("📝 SUMMARY:" +:+ LF +:+ t) with (("📝 SUMMARY:" +:+ LF) +:+ t).
  by rewrite !contains_headed_clean.
Qed.

Lemma carries_sentinel_analysis (t : string) :
  carries_sentinel ("🔍 ANALYSIS RESULTS:" +:+ LF +:+ t) = carries_sentinel t.
Proof.
  unfold carries_sentinel.
  change ("🔍 ANALYSIS RESULTS:" +:+ LF +:+ t)
    with (("🔍 ANALYSIS RESULTS:" +:+ LF) +:+ t).
  by rewrite !contains_headed_clean.
Qed.

Lemma ContentSummarizerTool_run_ok api_key text (x : Ext W) t w' :
  genai_generate api_key (summary_prompt_head +:+ text +:+ summary_prompt_tail)
    (coll x) = (Ok t, w') ->
  ContentSummarizerTool_run api_key text x
  = (Ok ("📝 SUMMARY:" +:+ LF +:+ t),
     {| coll := w';
        gen_calls := gen_calls x
                     ++ [summary_prompt_head +:+ text +:+ summary_prompt_tail] |}).
Proof.
  intros Hgen. unfold ContentSummarizerTool_run, try_catch, mbind, SE_bind.
  by rewrite (generate_content_ok _ _ _ _ _ _ _ Hgen).
Qed.

Lemma DocumentAnalyzerTool_run_ok api_key text (x : Ext W) t w' :
  genai_generate api_key
    (analysis_prompt_head +:+ text +:+ analysis_prompt_tail) (coll x)
  = (Ok t, w') ->
  DocumentAnalyzerTool_run api_key text x
  = (Ok ("🔍 ANALYSIS RESULTS:" +:+ LF +:+ t),
     {| coll := w';
        gen_calls := gen_calls x
                     ++ [analysis_prompt_head +:+ text
                         +:+ analysis_prompt_tail] |}).
Proof.
  intros Hgen. unfold DocumentAnalyzerTool_run, try_catch, mbind, SE_bind.
  by rewrite (generate_content_ok _ _ _ _ _ _ _ Hgen).
Qed.

(** X3. When the retrieval output, the generated summary and the generated
    analysis carry no sentinel, both executors return the same answer: the
    analysis under its [ANALYSIS RESULTS] heading, wrapped by the formatter
    and then by the citation manager; and both make exactly two generation
    calls, the summary prompt over the retrieval output and then the analysis
    prompt over the summary. *)
Theorem clean_run_answer
    (api_key : string) (r : Retriever W) (q : string) (h : Store W)
    (x x1 : Ext W) (R t1 t2 : string) (w2 w3 : W) :
  DocumentRetrieverTool_run r q x = (Ok R, x1) ->
  carries_sentinel R = false ->
  genai_generate api_key (summary_prompt_head +:+ R +:+ summary_prompt_tail)
    (coll x1) = (Ok t1, w2) ->
  carries_sentinel t1 = false ->
  genai_generate api_key
    (analysis_prompt_head +:+ ("📝 SUMMARY:" +:+ LF +:+ t1)
       +:+ analysis_prompt_tail) w2 = (Ok t2, w3) ->
  carries_sentinel t2 = false ->
  let answer :=
    citation_head
    +:+ (formatter_head +:+ ("🔍 ANALYSIS RESULTS:" +:+ LF +:+ t2)
         +:+ formatter_tail)
    +:+ citation_tail in
  let x3 :=
    {| coll := w3;
       gen_calls :=
         gen_calls x1
         ++ [summary_prompt_head +:+ R +:+ summary_prompt_tail;
             analysis_prompt_head +:+ ("📝 SUMMARY:" +:+ LF +:+ t1)
             +:+ analysis_prompt_tail] |} in
  (exists h',
     LangGraphMultiAgent_kickoff W (make_tools api_key r) {["query" := q]}
       (h, x)
     = (Ok answer, (h', x3))) /\
  SimpleMultiAgent_kickoff (make_tools api_key r) {["query" := q]} x
  = (Ok answer, x3).
Proof.
  intros HR HgR Hg1 Hc1 Hg2 Hc2 answer x3.
  pose proof (ContentSummarizerTool_run_ok api_key R x1 t1 w2 Hg1) as HS.
  pose proof (DocumentAnalyzerTool_run_ok api_key
                ("📝 SUMMARY:" +:+ LF +:+ t1)
                {| coll := w2;
                   gen_calls :=
                     gen_calls x1
                     ++ [summary_prompt_head +:+ R +:+ summary_prompt_tail] |}
                t2 w3 Hg2) as HA.
  cbn [coll gen_calls] in HA. rewrite <- app_assoc in HA. cbn [app] in HA.
  assert (HgS : carries_sentinel ("📝 SUMMARY:" +:+ LF +:+ t1) = false)
    by (by rewrite carries_sentinel_summary).
  assert (HgA : carries_sentinel ("🔍 ANALYSIS RESULTS:" +:+ LF +:+ t2) = false)
    by (by rewrite carries_sentinel_analysis).
  pose proof HgA as [HeA HpA]%orb_false_iff.
  destruct (executors_agree_on_clean_run W genai_generate str_upper api_key
              r q h x x1 _ x3 R _ _ HR HgR HS HgS HA (or_introl HpA))
    as [[h' Hgraph] Hsimple].
  rewrite format_and_cite_clean in Hgraph, Hsimple by done.
  split; [by exists h' | exact Hsimple].
Qed.

End CleanRun.

(** ** The executors over arbitrary tools *)

Section AnyTools.

Context (W : Type).

Local Abbreviation LangGraphMultiAgent_kickoff := (LangGraphMultiAgent_kickoff W).
Local Abbreviation graph_invoke := (graph_invoke W).

Local Ltac rewrite_eq E :=
  let H := fresh "E" in
  pose proof E as H; unfold Tool, M, Eff, Store in H |- *; rewrite H; clear H.

Lemma carries_sentinel_truthy (c : string) :
  carries_sentinel c = true -> truthy c = true.
Proof. by destruct c. Qed.

Lemma carries_sentinel_guard (c : string) :
  carries_sentinel c = true ->
  negb (contains "Error" c) && negb (contains "No relevant documents" c)
  = false.
Proof.
  unfold carries_sentinel. intros [-> | ->]%orb_true_iff; [reflexivity |].
  apply andb_false_r.
Qed.

Lemma summarizer_output_relay (st : AgentState W) (x : Ext W) t :
  tools st !! "summarizer" = Some t ->
  carries_sentinel (retrieved_documents st) = true ->
  summarizer_output st x = (retrieved_documents st, x).
Proof.
  intros Ht Hs. unfold summarizer_output, Tool in *.
  by rewrite Ht, (carries_sentinel_truthy _ Hs), (carries_sentinel_guard _ Hs).
Qed.

Lemma analyst_output_relay (st : AgentState W) (x : Ext W) t :
  tools st !! "analyzer" = Some t ->
  carries_sentinel (summarized_content st) = true ->
  analyst_output st x = (summarized_content st, x).
Proof.
  intros Ht Hs. unfold analyst_output, Tool in *.
  by rewrite Ht, (carries_sentinel_truthy _ Hs), (carries_sentinel_guard _ Hs).
Qed.

Lemma quality_output_relay (st : AgentState W) (x : Ext W) :
  carries_sentinel (content_to_format st) = true ->
  quality_output st x = (content_to_format st, x).
Proof.
  intros Hs. unfold quality_output. cbv zeta.
  destruct (tools st !! "formatter"); [| reflexivity].
  rewrite (carries_sentinel_truthy _ Hs). cbn [andb].
  pose proof (carries_sentinel_guard _ Hs) as Hg. by rewrite Hg.
Qed.

(** Once the retriever node has written a text that carries a sentinel, the
    graph executor returns that text and calls no further tool. *)
Lemma LangGraphMultiAgent_kickoff_relay
    (ts : gmap string (Tool W)) (inputs : gmap string string)
    (h : Store W) (x x1 : Ext W) (c : string) ts_sum ts_ana :
  ts !! "summarizer" = Some ts_sum ->
  ts !! "analyzer" = Some ts_ana ->
  retriever_output
    {| query := default "" (inputs !! "query"); retrieved_documents := "";
       summarized_content := ""; analysis_results := ""; final_output := "";
       current_step := "started"; error := ""; tools := ts |} x = (c, x1) ->
  carries_sentinel c = true ->
  exists h', LangGraphMultiAgent_kickoff ts inputs (h, x) = (Ok c, (h', x1)).
Proof.
  intros Hsum Hana Ho1 Hs.
  rewrite LangGraphMultiAgent_kickoff_spec.
  set (st0 := Build_AgentState _ _ _ _ _ _ _ _) in *.
  rewrite Ho1. cbn [fst snd].
  set (st1 := set_current_step _ (set_retrieved_documents c st0)).
  rewrite (summarizer_output_relay st1 x1 ts_sum Hsum Hs). cbn [fst snd].
  set (st2 := set_current_step _ (set_summarized_content _ st1)).
  rewrite (analyst_output_relay st2 x1 ts_ana Hana Hs). cbn [fst snd].
  set (st3 := set_current_step _ (set_analysis_results _ st2)).
  assert (Hc : content_to_format st3 = c).
  { unfold content_to_format, PyStr.or.
    change (analysis_results st3) with c.
    by rewrite (carries_sentinel_truthy c Hs). }
  rewrite (quality_output_relay st3 x1) by (by rewrite Hc).
  rewrite Hc. by eexists.
Qed.

Lemma SimpleMultiAgent_kickoff_relay
    (ts : gmap string (Tool W)) (inputs : gmap string string)
    (x x1 : Ext W) (c : string) (t : Tool W) :
  ts !! "retriever" = Some t ->
  t (default "" (inputs !! "query")) x = (Ok c, x1) ->
  carries_sentinel c = true ->
  SimpleMultiAgent_kickoff ts inputs x = (Ok c, x1).
Proof.
  intros Ht Hrun Hs. unfold SimpleMultiAgent_kickoff.
  unfold try_catch. unfold mbind at 1. unfold SE_bind at 1.
  unfold tools_index at 1. rewrite_eq Ht.
  unfold mbind, SE_bind, mret, SE_ret. cbn beta iota. rewrite_eq Hrun.
  unfold carries_sentinel in Hs. by rewrite Hs.
Qed.

(** X4. Over any tools with a retriever, a summarizer and an analyzer
    installed: when the retriever tool returns a text that carries the token
    [Error] or the phrase [No relevant documents], both executors return
    exactly that text and leave the world as the retriever tool left it, so
    no other tool is called. *)
Theorem sentinel_retrieval_ends_both_executors
    (ts : gmap string (Tool W)) (inputs : gmap string string)
    (h : Store W) (x x1 : Ext W) (c : string) (t ts_sum ts_ana : Tool W) :
  ts !! "retriever" = Some t ->
  ts !! "summarizer" = Some ts_sum ->
  ts !! "analyzer" = Some ts_ana ->
  t (default "" (inputs !! "query")) x = (Ok c, x1) ->
  carries_sentinel c = true ->
  (exists h', LangGraphMultiAgent_kickoff ts inputs (h, x) = (Ok c, (h', x1))) /\
  SimpleMultiAgent_kickoff ts inputs x = (Ok c, x1).
Proof.
  intros Ht Hsum Hana Hrun Hs. split.
  - apply (LangGraphMultiAgent_kickoff_relay ts inputs h x x1 c ts_sum ts_ana
             Hsum Hana); [| exact Hs].
    unfold retriever_output, run_or. cbn [tools query].
    rewrite_eq Ht. rewrite_eq Hrun. reflexivity.
  - by apply (SimpleMultiAgent_kickoff_relay ts inputs x x1 c t).
Qed.

(** X5. Over the same tools, when the retriever tool raises, neither
    executor raises: the graph executor returns [Error in retrieval: ]
    followed by the exception text, the sequential executor returns
    [Error in simple workflow: ] followed by it; no other tool is called. *)
Theorem raising_retriever_tool_is_reported
    (ts : gmap string (Tool W)) (inputs : gmap string string)
    (h : Store W) (x x1 : Ext W) (e : string) (t ts_sum ts_ana : Tool W) :
  ts !! "retriever" = Some t ->
  ts !! "summarizer" = Some ts_sum ->
  ts !! "analyzer" = Some ts_ana ->
  t (default "" (inputs !! "query")) x = (Raise e, x1) ->
  (exists h',
     LangGraphMultiAgent_kickoff ts inputs (h, x)
     = (Ok ("Error in retrieval: " +:+ e), (h', x1))) /\
  SimpleMultiAgent_kickoff ts inputs x
  = (Ok ("Error in simple workflow: " +:+ e), x1).
Proof.
  intros Ht Hsum Hana Hrun. split.
  - apply (LangGraphMultiAgent_kickoff_relay ts inputs h x x1 _ ts_sum ts_ana
             Hsum Hana); [| reflexivity].
    unfold retriever_output, run_or. cbn [tools query].
    rewrite_eq Ht. rewrite_eq Hrun. reflexivity.
  - unfold SimpleMultiAgent_kickoff.
    unfold try_catch. unfold mbind at 1. unfold SE_bind at 1.
    unfold tools_index at 1. rewrite_eq Ht.
    unfold mbind, SE_bind, mret, SE_ret. cbn beta iota. rewrite_eq Hrun.
    reflexivity.
Qed.

(** X6. Both executors return on every tools dict, every input and every
    world: whatever a tool raises and whichever tool is missing, [kickoff]
    hands back a text and never an exception. *)
Theorem executors_never_raise
    (ts : gmap string (Tool W)) (inputs : gmap string string)
    (h : Store W) (x : Ext W) :
  returns (LangGraphMultiAgent_kickoff ts inputs) (h, x) /\
  returns (SimpleMultiAgent_kickoff ts inputs) x /\
  forall crew : MultiAgent W, returns (kickoff crew inputs) (h, x).
Proof.
  split; [apply LangGraphMultiAgent_kickoff_returns |].
  split; [apply SimpleMultiAgent_kickoff_returns |].
  intros crew. apply kickoff_returns.
Qed.

(** *** A missing retriever tool *)

Lemma summarizer_output_ext (st st' : AgentState W) (x : Ext W) :
  tools st !! "summarizer" = tools st' !! "summarizer" ->
  retrieved_documents st = retrieved_documents st' ->
  summarizer_output st x = summarizer_output st' x.
Proof.
  intros Ht Hr. unfold summarizer_output, Tool in *. by rewrite Ht, Hr.
Qed.

Lemma analyst_output_ext (st st' : AgentState W) (x : Ext W) :
  tools st !! "analyzer" = tools st' !! "analyzer" ->
  summarized_content st = summarized_content st' ->
  analyst_output st x = analyst_output st' x.
Proof.
  intros Ht Hr. unfold analyst_output, Tool in *. by rewrite Ht, Hr.
Qed.

Lemma quality_output_ext (st st' : AgentState W) (x : Ext W) :
  tools st !! "formatter" = tools st' !! "formatter" ->
  tools st !! "citations" = tools st' !! "citations" ->
  content_to_format st = content_to_format st' ->
  quality_output st x = quality_output st' x.
Proof.
  intros Hf Hc Hr. unfold quality_output, Tool in *. by rewrite Hf, Hc, Hr.
Qed.

(** X7. With no retriever tool in the tools dict, the sequential executor
    returns the [KeyError] text [Error in simple workflow: 'retriever'] and
    calls nothing; the graph executor goes on with the text
    [Retriever tool not available] as if it had been retrieved: its answer
    and the world it leaves are those of a run whose retriever tool returns
    that text on every query. *)
Theorem missing_retriever_tool
    (ts : gmap string (Tool W)) (inputs : gmap string string)
    (h : Store W) (x : Ext W) :
  ts !! "retriever" = None ->
  SimpleMultiAgent_kickoff ts inputs x
  = (Ok "Error in simple workflow: 'retriever'", x) /\
  let stub : Tool W := fun _ => mret "Retriever tool not available" in
  (LangGraphMultiAgent_kickoff ts inputs (h, x)).1
  = (LangGraphMultiAgent_kickoff (<["retriever" := stub]> ts) inputs (h, x)).1
  /\
  (LangGraphMultiAgent_kickoff ts inputs (h, x)).2.2
  = (LangGraphMultiAgent_kickoff (<["retriever" := stub]> ts) inputs (h, x)).2.2.
Proof.
  intros Hnone. split.
  - unfold SimpleMultiAgent_kickoff.
    unfold try_catch. unfold mbind at 1. unfold SE_bind at 1.
    unfold tools_index at 1. rewrite_eq Hnone. reflexivity.
  - intros stub. rewrite !LangGraphMultiAgent_kickoff_spec. cbn [fst snd].
    set (st0 := Build_AgentState _ _ _ _ _ _ _ ts).
    set (st0' := Build_AgentState _ _ _ _ _ _ _ (<["retriever" := stub]> ts)).
    assert (Ho1 : retriever_output st0 x = ("Retriever tool not available", x)).
    { unfold retriever_output. cbn [tools st0]. by rewrite_eq Hnone. }
    assert (Ho1' : retriever_output st0' x = ("Retriever tool not available", x)).
    { unfold retriever_output. cbn [tools st0'].
      by rewrite_eq (lookup_insert_eq ts "retriever" stub). }
    rewrite Ho1, Ho1'. cbn [fst snd].
    set (st1 := set_current_step _ (set_retrieved_documents _ st0)).
    set (st1' := set_current_step _ (set_retrieved_documents _ st0')).
    assert (Hts : forall k, k <> "retriever" ->
              (<["retriever" := stub]> ts) !! k = ts !! k).
    { intros k Hk. by apply lookup_insert_ne. }
    rewrite (summarizer_output_ext st1' st1 x
               (Hts "summarizer" ltac:(done)) eq_refl).
    set (o2 := summarizer_output st1 x).
    set (st2 := set_current_step _ (set_summarized_content _ st1)).
    set (st2' := set_current_step _ (set_summarized_content _ st1')).
    rewrite (analyst_output_ext st2' st2 o2.2
               (Hts "analyzer" ltac:(done)) eq_refl).
    set (o3 := analyst_output st2 o2.2).
    set (st3 := set_current_step _ (set_analysis_results _ st2)).
    set (st3' := set_current_step _ (set_analysis_results _ st2')).
    rewrite (quality_output_ext st3' st3 o3.2
               (Hts "formatter" ltac:(done)) (Hts "citations" ltac:(done))
               eq_refl).
    by split.
Qed.

(** *** The graph as a whole *)

Lemma graph_invoke_spec (l : nat) (h : Store W) (x : Ext W) (st : AgentState W) :
  h !! l = Some st ->
  let o1 := retriever_output st x in
  let st1 := set_current_step "retrieval_complete"
               (set_retrieved_documents o1.1 st) in
  let o2 := summarizer_output st1 o1.2 in
  let st2 := set_current_step "summarization_complete"
               (set_summarized_content o2.1 st1) in
  let o3 := analyst_output st2 o2.2 in
  let st3 := set_current_step "analysis_complete"
               (set_analysis_results o3.1 st2) in
  let o4 := quality_output st3 o3.2 in
  let st4 := set_current_step "complete" (set_final_output o4.1 st3) in
  graph_invoke l (h, x)
  = (Ok (length h + 3), (h ++ [st1; st2; st3; st4], o4.2)).
Proof.
  intros Hl o1 st1 o2 st2 o3 st3 o4 st4.
  unfold graph_invoke. repeat progress unfold mbind, SE_bind.
  rewrite_eq (retriever_agent_spec W l h x st Hl). fold o1 st1.
  rewrite_eq (summarizer_agent_spec W _ _ o1.2 st1
                (list_lookup_middle h [] st1 _ eq_refl)).
  fold o2 st2.
  rewrite_eq (analyst_agent_spec W _ _ o2.2 st2
                (list_lookup_middle (h ++ [st1]) [] st2 _ eq_refl)).
  fold o3 st3.
  rewrite_eq (quality_agent_spec W _ _ o3.2 st3
                (list_lookup_middle ((h ++ [st1]) ++ [st2]) [] st3 _ eq_refl)).
  fold o4 st4. rewrite <- !app_assoc. cbn [app].
  rewrite !length_app. cbn [length]. repeat f_equal; lia.
Qed.

(** X8. Run on a state dict of the store, the graph adds four dicts, one per
    node, stepping through [retrieval_complete], [summarization_complete],
    [analysis_complete] and [complete]; the last dict has the input's
    [query], [error] and [tools], and holds under [retrieved_documents],
    [summarized_content] and [analysis_results] what the first three nodes
    wrote; the dicts already in the store are left as they were. *)
Theorem graph_invoke_threads_state
    (l : nat) (h : Store W) (x : Ext W) (st : AgentState W) :
  h !! l = Some st ->
  exists (st1 st2 st3 st4 : AgentState W) (x' : Ext W),
    graph_invoke l (h, x) = (Ok (length h + 3), (h ++ [st1; st2; st3; st4], x')) /\
    current_step st1 = "retrieval_complete" /\
    current_step st2 = "summarization_complete" /\
    current_step st3 = "analysis_complete" /\
    current_step st4 = "complete" /\
    query st4 = query st /\ error st4 = error st /\ tools st4 = tools st /\
    retrieved_documents st4 = retrieved_documents st1 /\
    summarized_content st4 = summarized_content st2 /\
    analysis_results st4 = analysis_results st3 /\
    (forall i d, h !! i = Some d ->
       (h ++ [st1; st2; st3; st4]) !! i = Some d).
Proof.
  intros Hl. pose proof (graph_invoke_spec l h x st Hl) as Hrun.
  cbv zeta in Hrun. eexists _, _, _, _, _. split; [exact Hrun |].
  repeat (split; [reflexivity |]).
  intros i d Hi. by apply lookup_app_l_Some.
Qed.

End AnyTools.

(** ** What the retrieval tool writes *)

Section Rendering.

Context (W : Type).
Context (genai_generate : string -> string -> W -> Outcome string * W).
Context (str_upper : string -> string).

Local Abbreviation DocumentRetrieverTool_run :=
  (DocumentRetrieverTool_run W str_upper).
Local Abbreviation make_tools := (make_tools W genai_generate str_upper).
Local Abbreviation document_block := (document_block str_upper).
Local Abbreviation document_blocks := (document_blocks str_upper).

(** The loop appends the blocks of the chunks, in order, to what it was
    given. *)
Lemma render_documents_blocks (docs : list Document) (i : nat) (result : string) :
  render_documents str_upper i docs result = result +:+ document_blocks i docs.
Proof.
  revert i result. induction docs as [|doc rest IH]; intros i result.
  - cbn [render_documents document_blocks].
    by rewrite append_empty_r.
  - cbn [render_documents document_blocks]. cbv zeta. rewrite IH.
    unfold document_block. by rewrite !append_assoc.
Qed.

Lemma document_blocks_split (docs : list Document) (k i : nat) (doc : Document) :
  docs !! k = Some doc ->
  exists pre post,
    document_blocks i docs = pre +:+ document_block (i + k) doc +:+ post.
Proof.
  revert k i. induction docs as [|d rest IH]; intros k i Hk; [discriminate |].
  cbn [document_blocks]. destruct k as [|k].
  - injection Hk as ->. rewrite Nat.add_0_r. by exists "", (document_blocks (S i) rest).
  - destruct (IH k (S i) Hk) as (pre & post & ->).
    replace (S i + k) with (i + S k) by lia.
    exists (document_block i d +:+ pre), post. by rewrite !append_assoc.
Qed.

Lemma document_block_content (i : nat) (doc : Document) :
  contains ("Content: " +:+ page_content doc +:+ LF) (document_block i doc)
  = true.
Proof.
  unfold document_block. apply contains_spec.
  eexists _, _. reflexivity.
Qed.

Lemma DocumentRetrieverTool_run_blocks
    (r : Retriever W) (f : Search W) (q : string) (x : Ext W)
    (docs : list Document) (w' : W) :
  first_present [get_relevant_documents r; invoke r; call r] = Some f ->
  f q (coll x) = (Ok docs, w') ->
  docs <> [] ->
  DocumentRetrieverTool_run r q x
  = (Ok (("🔍 RETRIEVED DOCUMENTS:" +:+ LF +:+ LF) +:+ document_blocks 1 docs),
     {| coll := w'; gen_calls := gen_calls x |}).
Proof.
  intros Hf Hq Hne.
  rewrite (DocumentRetrieverTool_run_via W str_upper r f q x Hf).
  unfold retrieval_via. rewrite Hq. destruct docs as [|d ds]; [done |].
  by rewrite render_documents_blocks.
Qed.

(** X9. When the capability the retrieval tool uses returns a non-empty
    sequence of chunks, the tool returns the line [RETRIEVED DOCUMENTS:] and
    an empty line followed by one block per chunk, in the order of the
    sequence and numbered from 1; the block of a chunk holds the chunk's
    content verbatim on its [Content: ] line. *)
Theorem retrieval_output_lists_chunks_in_order
    (r : Retriever W) (f : Search W) (q : string) (x : Ext W)
    (docs : list Document) (w' : W) :
  first_present [get_relevant_documents r; invoke r; call r] = Some f ->
  f q (coll x) = (Ok docs, w') ->
  docs <> [] ->
  let out := ("🔍 RETRIEVED DOCUMENTS:" +:+ LF +:+ LF) +:+ document_blocks 1 docs in
  DocumentRetrieverTool_run r q x
  = (Ok out, {| coll := w'; gen_calls := gen_calls x |}) /\
  forall k doc, docs !! k = Some doc ->
    (exists pre post, out = pre +:+ document_block (k + 1) doc +:+ post) /\
    contains ("Content: " +:+ page_content doc +:+ LF) out = true.
Proof.
  intros Hf Hq Hne out.
  split; [exact (DocumentRetrieverTool_run_blocks r f q x docs w' Hf Hq Hne) |].
  intros k doc Hk.
  destruct (document_blocks_split docs k 1 doc Hk) as (pre & post & Hsplit).
  replace (1 + k) with (k + 1) in Hsplit by lia.
  assert (Hout : out = (("🔍 RETRIEVED DOCUMENTS:" +:+ LF +:+ LF) +:+ pre)
                       +:+ document_block (k + 1) doc +:+ post).
  { unfold out. rewrite Hsplit. by rewrite !append_assoc. }
  split; [by eexists _, _ |].
  apply (contains_trans _ (document_block (k + 1) doc)).
  - apply document_block_content.
  - rewrite Hout. apply contains_append_mid.
Qed.

Lemma carries_sentinel_mono (a b : string) :
  carries_sentinel a = true -> contains a b = true -> carries_sentinel b = true.
Proof.
  unfold carries_sentinel. intros [Ha | Ha]%orb_true_iff Hab.
  - by rewrite (contains_trans _ _ _ Ha Hab).
  - rewrite (contains_trans _ _ _ Ha Hab). apply orb_true_r.
Qed.

(** X10. When the content of a retrieved chunk carries the token [Error] or
    the phrase [No relevant documents], both executors take the retrieval
    output for a sentinel: they return the retrieval output itself, with no
    summary, analysis or formatting, and make no generation call. *)
Theorem chunk_with_sentinel_text_stops_the_pipeline
    (api_key : string) (r : Retriever W) (f : Search W) (q : string)
    (h : Store W) (x : Ext W) (docs : list Document) (w' : W)
    (k : nat) (doc : Document) :
  first_present [get_relevant_documents r; invoke r; call r] = Some f ->
  f q (coll x) = (Ok docs, w') ->
  docs !! k = Some doc ->
  carries_sentinel (page_content doc) = true ->
  let out := ("🔍 RETRIEVED DOCUMENTS:" +:+ LF +:+ LF) +:+ document_blocks 1 docs in
  let x' := {| coll := w'; gen_calls := gen_calls x |} in
  (exists h',
     LangGraphMultiAgent_kickoff W (make_tools api_key r) {["query" := q]}
       (h, x)
     = (Ok out, (h', x'))) /\
  SimpleMultiAgent_kickoff (make_tools api_key r) {["query" := q]} x
  = (Ok out, x').
Proof.
  intros Hf Hq Hk Hs out x'.
  assert (Hne : docs <> []) by (by destruct docs).
  pose proof (DocumentRetrieverTool_run_blocks r f q x docs w' Hf Hq Hne)
    as Hrun. fold out x' in Hrun.
  assert (Hout : carries_sentinel out = true).
  { destruct (document_blocks_split docs k 1 doc Hk) as (pre & post & Hsplit).
    apply (carries_sentinel_mono (page_content doc)); [exact Hs |].
    apply (contains_trans _ ("Content: " +:+ page_content doc +:+ LF)).
    - apply contains_spec. by exists "Content: ", LF.
    - apply (contains_trans _ (document_block (1 + k) doc)).
      + apply document_block_content.
      + unfold out. rewrite Hsplit. apply contains_spec.
        exists (("🔍 RETRIEVED DOCUMENTS:" +:+ LF +:+ LF) +:+ pre), post.
        by rewrite !append_assoc. }
  assert (Hq' : default "" (({["query" := q]} : gmap string string) !! "query")
                = q) by (by rewrite lookup_singleton_eq).
  split.
  - apply (LangGraphMultiAgent_kickoff_relay W _ _ h x x' out _ _
             (make_tools_summarizer W genai_generate str_upper api_key r)
             (make_tools_analyzer W genai_generate str_upper api_key r));
      [| exact Hout].
    unfold retriever_output, run_or. cbn [tools query].
    rewrite make_tools_retriever, Hq'.
    unfold Eff in *. by rewrite Hrun.
  - apply (SimpleMultiAgent_kickoff_relay W _ _ x x' out
             (DocumentRetrieverTool_run r));
      [apply make_tools_retriever | by rewrite Hq' | exact Hout].
Qed.

End Rendering.

(** ** The retrieval probe and the fallback of [chat.py] *)

Section ChatFallback.

Context (W : Type).
Context (genai_generate : string -> string -> W -> Outcome string * W).
Context (str_upper : string -> string).

Local Abbreviation DocumentRetrieverTool_run :=
  (DocumentRetrieverTool_run W str_upper).
Local Abbreviation chat_retrieve := (chat_retrieve W).
Local Abbreviation show_sources := (show_sources W).
Local Abbreviation display_enhanced_fallback_single :=
  (display_enhanced_fallback_single W genai_generate).
Local Abbreviation display_enhanced_fallback :=
  (display_enhanced_fallback W genai_generate).

Lemma on_coll_gen_calls {A} (f : W -> Outcome A * W) (x : Ext W) :
  gen_calls (on_coll f x).2 = gen_calls x.
Proof. unfold on_coll. by destruct (f (coll x)). Qed.

Lemma chat_retrieve_cases (r : Retriever W) (q : string) (x : Ext W) :
  chat_retrieve r q x
  = match first_present [invoke r; get_relevant_documents r; call r] with
    | Some f => on_coll (f q) x
    | None => (Ok [], x)
    end.
Proof.
  unfold chat_retrieve. cbn [first_present].
  destruct (invoke r); [reflexivity |].
  destruct (get_relevant_documents r); [reflexivity |].
  by destruct (call r).
Qed.

(** The probe never touches the log of generation calls. *)
Lemma chat_retrieve_gen_calls (r : Retriever W) (q : string) (x : Ext W) :
  gen_calls (chat_retrieve r q x).2 = gen_calls x.
Proof.
  rewrite chat_retrieve_cases.
  destruct (first_present _); [apply on_coll_gen_calls | reflexivity].
Qed.

Lemma show_sources_spec (r : Retriever W) (q : string) (x : Ext W) :
  show_sources r q x = (Ok tt, (chat_retrieve r q x).2).
Proof.
  unfold show_sources, try_catch, mbind, SE_bind.
  by destruct (chat_retrieve r q x) as [[docs|e] x1].
Qed.

(** X11. The probe of [chat.py] queries through the first capability
    present in the order [invoke], [get_relevant_documents], plain call, and
    yields nothing (without raising) when the retriever has none; so for a
    retriever that has both [get_relevant_documents] and [invoke], the
    pipeline's retrieval tool queries through the former while the source
    display and the fallbacks of [chat.py] query through the latter. *)
Theorem chat_probe_order (r : Retriever W) (q : string) (x : Ext W) :
  chat_retrieve r q x
  = match first_present [invoke r; get_relevant_documents r; call r] with
    | Some f => on_coll (f q) x
    | None => (Ok [], x)
    end /\
  forall f g : Search W,
    get_relevant_documents r = Some f -> invoke r = Some g ->
    DocumentRetrieverTool_run r q x = retrieval_via W str_upper f q x /\
    chat_retrieve r q x = on_coll (g q) x.
Proof.
  split; [apply chat_retrieve_cases |].
  intros f g Hf Hg. split.
  - apply DocumentRetrieverTool_run_via. cbn [first_present]. by rewrite Hf.
  - rewrite chat_retrieve_cases. cbn [first_present]. by rewrite Hg.
Qed.

(** X12. The per-document fallback answers without the model when it has no
    chunks: if the probe raises it returns [Error retrieving from ] followed
    by the document name, if the probe yields nothing it returns
    [No relevant content found in ] followed by the document name; in both
    cases it does not raise and makes no generation call. *)
Theorem fallback_single_without_chunks
    (q : string) (r : Retriever W) (api_key doc_name : string) (x x1 : Ext W) :
  (forall e, chat_retrieve r q x = (Raise e, x1) ->
     display_enhanced_fallback_single q r api_key doc_name x
     = (Ok ("Error retrieving from " +:+ doc_name), x1) /\
     gen_calls x1 = gen_calls x) /\
  (chat_retrieve r q x = (Ok [], x1) ->
     display_enhanced_fallback_single q r api_key doc_name x
     = (Ok ("No relevant content found in " +:+ doc_name), x1) /\
     gen_calls x1 = gen_calls x).
Proof.
  split.
  - intros e Hr. split.
    + unfold display_enhanced_fallback_single, try_catch, mbind, SE_bind.
      unfold Eff in *. by rewrite Hr.
    + by rewrite <- (chat_retrieve_gen_calls r q x), Hr.
  - intros Hr. split.
    + unfold display_enhanced_fallback_single, try_catch, mbind, SE_bind.
      unfold Eff in *. by rewrite Hr.
    + by rewrite <- (chat_retrieve_gen_calls r q x), Hr.
Qed.

Lemma display_enhanced_fallback_single_chunks
    (q : string) (r : Retriever W) (api_key doc_name : string) (x x1 : Ext W)
    (docs : list Document) :
  chat_retrieve r q x = (Ok docs, x1) -> docs <> [] ->
  display_enhanced_fallback_single q r api_key doc_name x
  = generate_content W genai_generate api_key
      (fallback_prompt doc_name q
         (join (LF +:+ LF) (context_parts 0 (take 4 docs)))) x1.
Proof.
  intros Hr Hne.
  unfold display_enhanced_fallback_single, try_catch, mbind, SE_bind.
  unfold Eff in *. rewrite Hr. unfold mret, SE_ret.
  by destruct docs.
Qed.

(** X13. With chunks, the per-document fallback makes one generation call
    and hands back its outcome as it is: the model's text verbatim, or the
    model's exception, which it does not catch; and the call depends on the
    chunks only through the first four: two probes that agree on their first
    four chunks give the same result. *)
Theorem fallback_single_uses_first_four_chunks
    (q : string) (r r' : Retriever W) (api_key doc_name : string)
    (x x1 : Ext W) (docs docs' : list Document) :
  chat_retrieve r q x = (Ok docs, x1) ->
  chat_retrieve r' q x = (Ok docs', x1) ->
  docs <> [] ->
  take 4 docs = take 4 docs' ->
  let prompt :=
    fallback_prompt doc_name q
      (join (LF +:+ LF) (context_parts 0 (take 4 docs))) in
  display_enhanced_fallback_single q r api_key doc_name x
  = display_enhanced_fallback_single q r' api_key doc_name x /\
  (forall t w2, genai_generate api_key prompt (coll x1) = (Ok t, w2) ->
     display_enhanced_fallback_single q r api_key doc_name x
     = (Ok t, {| coll := w2; gen_calls := gen_calls x1 ++ [prompt] |})) /\
  (forall e w2, genai_generate api_key prompt (coll x1) = (Raise e, w2) ->
     display_enhanced_fallback_single q r api_key doc_name x
     = (Raise e, {| coll := w2; gen_calls := gen_calls x1 ++ [prompt] |})).
Proof.
  intros Hr Hr' Hne Htake prompt.
  assert (Hne' : docs' <> []).
  { intros ->. destruct docs; [done | discriminate]. }
  rewrite (display_enhanced_fallback_single_chunks q r _ _ x x1 docs Hr Hne).
  rewrite (display_enhanced_fallback_single_chunks q r' _ _ x x1 docs' Hr' Hne').
  fold prompt. split; [by rewrite <- Htake |]. split.
  - intros t w2 Hg. by apply generate_content_ok.
  - intros e w2 Hg. by apply generate_content_raise.
Qed.

(** X14. The single-document fallback leaves the chat history as it was,
    and makes no generation call, when the probe raises or yields nothing;
    with chunks and a model that answers, it appends one entry that holds the
    model's text, is marked as not agent-generated, and records as
    [sources_used] the number of all retrieved chunks, while the prompt is
    built from the first six only. *)
Theorem single_fallback_history
    (q : string) (r : Retriever W) (api_key selected_document now : string)
    (chat_history : option (list ChatEntry)) (x x1 : Ext W) :
  (forall e, chat_retrieve r q x = (Raise e, x1) ->
     display_enhanced_fallback q r api_key selected_document now chat_history x
     = (Ok chat_history, x1)) /\
  (chat_retrieve r q x = (Ok [], x1) ->
     display_enhanced_fallback q r api_key selected_document now chat_history x
     = (Ok chat_history, x1)) /\
  (forall docs t w2,
     chat_retrieve r q x = (Ok docs, x1) -> docs <> [] ->
     let prompt :=
       single_fallback_prompt q
         (join (LF +:+ LF) (context_parts 0 (take 6 docs))) in
     genai_generate api_key prompt (coll x1) = (Ok t, w2) ->
     display_enhanced_fallback q r api_key selected_document now chat_history x
     = (Ok (Some (default [] chat_history
                  ++ [{| entry_query := q; entry_response := ResponseText t;
                         entry_document := selected_document;
                         entry_timestamp := now;
                         entry_agent_generated := false;
                         entry_sources_used := Some (length docs);
                         entry_multi_document := None |}])),
        {| coll := w2; gen_calls := gen_calls x1 ++ [prompt] |})).
Proof.
  split; [| split].
  - intros e Hr.
    unfold display_enhanced_fallback, try_catch, mbind, SE_bind.
    unfold Eff in *. by rewrite Hr.
  - intros Hr.
    unfold display_enhanced_fallback, try_catch, mbind, SE_bind.
    unfold Eff in *. by rewrite Hr.
  - intros docs t w2 Hr Hne prompt Hg.
    unfold display_enhanced_fallback, try_catch, mbind, SE_bind.
    unfold Eff in *. rewrite Hr. unfold mret, SE_ret.
    destruct docs as [|d ds]; [done |]. cbv zeta. fold prompt.
    by rewrite (generate_content_ok W genai_generate _ _ _ _ _ Hg).
Qed.

End ChatFallback.

(** ** The chat history *)

Section ChatHistory.

Context (W : Type).
Context (genai_generate : string -> string -> W -> Outcome string * W).
Context (str_upper : string -> string).
Context (LANGGRAPH_AVAILABLE : bool).

Local Abbreviation get_multiagent_system :=
  (get_multiagent_system W genai_generate str_upper LANGGRAPH_AVAILABLE).
Local Abbreviation process_document :=
  (process_document W genai_generate str_upper LANGGRAPH_AVAILABLE).
Local Abbreviation process_multi_document_query :=
  (process_multi_document_query W genai_generate str_upper LANGGRAPH_AVAILABLE).
Local Abbreviation process_multi_document_query_history :=
  (process_multi_document_query_history W genai_generate str_upper
     LANGGRAPH_AVAILABLE).
Local Abbreviation process_single_document_query :=
  (process_single_document_query W genai_generate str_upper
     LANGGRAPH_AVAILABLE).

(** X15. For a target that has a retriever, one round of the coordinator
    stores exactly the text its executor returned, then queries the
    retriever once more to show the sources; the round does not raise, and
    after the executor has returned no generation call is made: the
    per-document fallback and the placeholder of the [except] branch are
    never used. *)
Theorem coordinator_round_stores_executor_text
    (document_retrievers : gmap string (Retriever W))
    (q api_key doc_name : string) (r : Retriever W)
    (acc : list (string * string)) (s : Store W * Ext W) :
  document_retrievers !! doc_name = Some r ->
  exists (v : string) (h1 : Store W) (x1 : Ext W),
    kickoff (get_multiagent_system api_key r true) {["query" := q]} s
    = (Ok v, (h1, x1)) /\
    process_document document_retrievers q api_key doc_name acc s
    = (Ok (dict_set doc_name v acc), (h1, (chat_retrieve W r q x1).2)) /\
    dict_get doc_name (dict_set doc_name v acc) = Some v /\
    gen_calls (chat_retrieve W r q x1).2 = gen_calls x1.
Proof.
  intros Hr. unfold process_document. rewrite Hr.
  destruct (kickoff_returns W (get_multiagent_system api_key r true)
              {["query" := q]} s) as (v & [h1 x1] & Hk).
  exists v, h1, x1. split; [exact Hk |]. split; [| split].
  - unfold try_catch, mbind, SE_bind, lift. rewrite Hk.
    unfold Eff in *. by rewrite show_sources_spec.
  - apply dict_get_set_eq.
  - apply chat_retrieve_gen_calls.
Qed.

(** X16. The multi-document query leaves the chat history as it was when no
    selected target has a retriever; otherwise it appends exactly one entry,
    which holds the query, the result set as its response, and as its
    document label [Multiple Documents: ] followed by all the selected names
    joined by [, ], the targets without a retriever included. *)
Theorem multi_document_history
    (document_retrievers : gmap string (Retriever W))
    (q api_key now : string) (selected_docs : list string)
    (chat_history : option (list ChatEntry)) (s : Store W * Ext W) :
  NoDup selected_docs ->
  ((forall d, d ∈ selected_docs -> document_retrievers !! d = None) ->
   process_multi_document_query_history document_retrievers q selected_docs
     api_key now chat_history s
   = (Ok chat_history, s)) /\
  ((exists d, d ∈ selected_docs /\ is_Some (document_retrievers !! d)) ->
   exists results s',
     process_multi_document_query document_retrievers q selected_docs api_key s
     = (Ok results, s') /\
     process_multi_document_query_history document_retrievers q selected_docs
       api_key now chat_history s
     = (Ok (Some (default [] chat_history
                  ++ [{| entry_query := q;
                         entry_response := ResponseByDocument results;
                         entry_document :=
                           "Multiple Documents: " +:+ join ", " selected_docs;
                         entry_timestamp := now;
                         entry_agent_generated := true;
                         entry_sources_used := None;
                         entry_multi_document := Some true |}])), s')).
Proof.
  intros Hnd.
  destruct (process_documents_inv W genai_generate str_upper
              LANGGRAPH_AVAILABLE document_retrievers q api_key
              selected_docs [] s Hnd)
    as (results & s' & Hrun & Hkeys & _ & _).
  { intros d _. apply not_elem_of_nil. }
  cbn [app fmap list_fmap] in Hkeys.
  assert (Hq : process_multi_document_query document_retrievers q selected_docs
                 api_key s = (Ok results, s')) by exact Hrun.
  split.
  - intros Hnone.
    assert (Hfilter : filter (fun d => is_Some (document_retrievers !! d))
                        selected_docs = []).
    { clear -Hnone. induction selected_docs as [|d rest IH]; [reflexivity |].
      rewrite filter_cons_False.
      - apply IH. intros d' Hd'. apply Hnone. by right.
      - rewrite (Hnone d) by (by left). by intros [? ?]. }
    rewrite Hfilter in Hkeys. apply fmap_nil_inv in Hkeys. subst results.
    assert (Hs : s' = s).
    { clear Hq Hfilter. revert s Hrun. clear Hnd.
      induction selected_docs as [|d rest IH]; intros s Hrun.
      - by injection Hrun as <-.
      - rewrite process_documents_cons in Hrun.
        unfold mbind, SE_bind in Hrun.
        rewrite (process_document_skip W genai_generate str_upper
                   LANGGRAPH_AVAILABLE document_retrievers q api_key d [] s)
          in Hrun by (apply Hnone; by left).
        apply IH; [| exact Hrun]. intros d' Hd'. apply Hnone. by right. }
    subst s'.
    unfold process_multi_document_query_history, mbind, SE_bind.
    unfold M in *. by rewrite Hq.
  - intros (d & Hd & Hsome).
    exists results, s'. split; [exact Hq |].
    assert (Hne : results <> []).
    { intros ->. cbn in Hkeys.
      assert (Hin : d ∈ filter (fun d => is_Some (document_retrievers !! d))
                        selected_docs) by (by apply list_elem_of_filter).
      rewrite <- Hkeys in Hin. by apply elem_of_nil in Hin. }
    unfold process_multi_document_query_history, mbind, SE_bind.
    unfold M in *. rewrite Hq. by destruct results.
Qed.

(** X17. The single-document query does nothing without a retriever; with
    one it does not raise and appends exactly one entry to the chat history,
    after the entries already there: the entry holds the query, the text the
    executor returned (a sentinel or error text included) as its response,
    the selected document and the time, and is marked as agent-generated. *)
Theorem single_document_history
    (q api_key selected_document now : string)
    (chat_history : option (list ChatEntry)) (s : Store W * Ext W) :
  process_single_document_query q api_key None selected_document now
    chat_history s
  = (Ok chat_history, s) /\
  forall r : Retriever W,
    exists (v : string) (h1 : Store W) (x1 : Ext W),
      kickoff (get_multiagent_system api_key r true) {["query" := q]} s
      = (Ok v, (h1, x1)) /\
      process_single_document_query q api_key (Some r) selected_document now
        chat_history s
      = (Ok (Some (default [] chat_history
                   ++ [{| entry_query := q; entry_response := ResponseText v;
                          entry_document := selected_document;
                          entry_timestamp := now;
                          entry_agent_generated := true;
                          entry_sources_used := None;
                          entry_multi_document := None |}])),
         (h1, (chat_retrieve W r q x1).2)).
Proof.
  split; [reflexivity |]. intros r.
  destruct (kickoff_returns W (get_multiagent_system api_key r true)
              {["query" := q]} s) as (v & [h1 x1] & Hk).
  exists v, h1, x1. split; [exact Hk |].
  unfold process_single_document_query, try_catch, mbind, SE_bind, lift.
  rewrite Hk. unfold display_enhanced_answer, mbind, SE_bind.
  unfold Eff in *. by rewrite show_sources_spec.
Qed.

End ChatHistory.

(** * The further scenarios, evaluated *)

Lemma format_then_cite_witness :
  "Plants." <> "" /\
  contains "Error" "Plants." = false /\
  CitationManagerTool_run (ContentFormatterTool_run "Plants.")
  = citation_head +:+ (formatter_head +:+ "Plants." +:+ formatter_tail)
      +:+ citation_tail.
Proof.
  split; [discriminate |]. split; [reflexivity |].
  apply (format_then_cite_wraps_twice "Plants."); [discriminate | reflexivity].
Defined.

Lemma clean_run_witness :
  carries_sentinel "Plants turn light into sugar." = false /\
  SimpleMultiAgent_kickoff
    (make_tools unit gen_ok ascii_upper "key" retriever_bio) question x0
  = (Ok (citation_head
         +:+ (formatter_head
              +:+ ("🔍 ANALYSIS RESULTS:" +:+ LF
                   +:+ "Plants turn light into sugar.")
              +:+ formatter_tail)
         +:+ citation_tail),
     (SimpleMultiAgent_kickoff
        (make_tools unit gen_ok ascii_upper "key" retriever_bio) question x0).2).
Proof.
  split; [reflexivity |].
  destruct (clean_run_answer unit gen_ok ascii_upper "key" retriever_bio
              "What is the main topic?" [] x0 x0
              (("🔍 RETRIEVED DOCUMENTS:" +:+ LF +:+ LF)
               +:+ document_blocks ascii_upper 1 [bio_chunk; bare_chunk])
              "Plants turn light into sugar." "Plants turn light into sugar."
              tt tt
              ltac:(vm_compute; reflexivity) ltac:(vm_compute; reflexivity)
              ltac:(vm_compute; reflexivity) ltac:(vm_compute; reflexivity)
              ltac:(vm_compute; reflexivity) ltac:(vm_compute; reflexivity))
    as [_ Hsimple].
  unfold question. rewrite Hsimple. reflexivity.
Defined.

Lemma sentinel_retrieval_witness :
  carries_sentinel empty_result_marker = true /\
  SimpleMultiAgent_kickoff
    (make_tools unit gen_ok ascii_upper "key" retriever_nothing) question x0
  = (Ok empty_result_marker, x0).
Proof.
  split; [reflexivity |].
  destruct (sentinel_retrieval_ends_both_executors unit
              (make_tools unit gen_ok ascii_upper "key" retriever_nothing)
              question [] x0 x0 empty_result_marker
              (DocumentRetrieverTool_run unit ascii_upper retriever_nothing)
              (ContentSummarizerTool_run unit gen_ok "key")
              (DocumentAnalyzerTool_run unit gen_ok "key")
              eq_refl eq_refl eq_refl eq_refl eq_refl)
    as [_ Hsimple].
  exact Hsimple.
Defined.

Lemma raising_retriever_tool_witness :
  (exists h',
     LangGraphMultiAgent_kickoff unit tools_raising question ([], x0)
     = (Ok "Error in retrieval: index unavailable", (h', x0))) /\
  SimpleMultiAgent_kickoff tools_raising question x0
  = (Ok "Error in simple workflow: index unavailable", x0).
Proof.
  exact (raising_retriever_tool_is_reported unit tools_raising question [] x0
           x0 "index unavailable" (fun _ => raise "index unavailable")
           (ContentSummarizerTool_run unit gen_ok "key")
           (DocumentAnalyzerTool_run unit gen_ok "key")
           eq_refl eq_refl eq_refl eq_refl).
Defined.

Lemma missing_retriever_tool_witness :
  tools_without_retriever !! "retriever" = None /\
  SimpleMultiAgent_kickoff tools_without_retriever question x0
  = (Ok "Error in simple workflow: 'retriever'", x0).
Proof.
  split; [reflexivity |].
  destruct (missing_retriever_tool unit tools_without_retriever question []
              x0 eq_refl) as [Hsimple _].
  exact Hsimple.
Defined.

Lemma graph_invoke_witness :
  [st_started] !! 0 = Some st_started /\
  exists (st1 st2 st3 st4 : AgentState unit) (x' : Ext unit),
    graph_invoke unit 0 ([st_started], x0)
    = (Ok 4, ([st_started; st1; st2; st3; st4], x')) /\
    current_step st4 = "complete" /\
    query st4 = "What is the main topic?".
Proof.
  split; [reflexivity |].
  destruct (graph_invoke_threads_state unit 0 [st_started] x0 st_started eq_refl)
    as (st1 & st2 & st3 & st4 & x' & Hrun & _ & _ & _ & Hstep & Hq & _).
  exists st1, st2, st3, st4, x'. split; [exact Hrun |]. by split.
Defined.

Lemma retrieval_output_witness :
  search_bio "What is the main topic?" (coll x0)
  = (Ok [bio_chunk; bare_chunk], tt) /\
  [bio_chunk; bare_chunk] <> [] /\
  DocumentRetrieverTool_run unit ascii_upper retriever_bio
    "What is the main topic?" x0
  = (Ok (("🔍 RETRIEVED DOCUMENTS:" +:+ LF +:+ LF)
         +:+ document_blocks ascii_upper 1 [bio_chunk; bare_chunk]), x0).
Proof.
  split; [reflexivity |]. split; [discriminate |].
  destruct (retrieval_output_lists_chunks_in_order unit ascii_upper
              retriever_bio search_bio "What is the main topic?" x0
              [bio_chunk; bare_chunk] tt eq_refl eq_refl ltac:(discriminate))
    as [Hrun _].
  exact Hrun.
Defined.

Lemma chunk_with_sentinel_text_witness :
  [bio_chunk; guide_chunk] !! 1 = Some guide_chunk /\
  carries_sentinel (page_content guide_chunk) = true /\
  SimpleMultiAgent_kickoff
    (make_tools unit gen_ok ascii_upper "key" retriever_guide) question x0
  = (Ok (("🔍 RETRIEVED DOCUMENTS:" +:+ LF +:+ LF)
         +:+ document_blocks ascii_upper 1 [bio_chunk; guide_chunk]), x0).
Proof.
  split; [reflexivity |]. split; [reflexivity |].
  destruct (chunk_with_sentinel_text_stops_the_pipeline unit gen_ok ascii_upper
              "key" retriever_guide search_guide "What is the main topic?" []
              x0 [bio_chunk; guide_chunk] tt 1 guide_chunk
              eq_refl eq_refl eq_refl eq_refl)
    as [_ Hsimple].
  exact Hsimple.
Defined.

Lemma chat_probe_order_witness :
  get_relevant_documents retriever_both = Some search_bio /\
  invoke retriever_both = Some search_nothing /\
  (DocumentRetrieverTool_run unit ascii_upper retriever_both "q" x0).1
  <> Ok empty_result_marker /\
  chat_retrieve unit retriever_both "q" x0 = (Ok [], x0).
Proof.
  split; [reflexivity |]. split; [reflexivity |].
  destruct (chat_probe_order unit ascii_upper retriever_both "q" x0)
    as [_ Hboth].
  destruct (Hboth search_bio search_nothing eq_refl eq_refl) as [Htool Hchat].
  split; [| exact Hchat].
  rewrite Htool. vm_compute. discriminate.
Defined.

Lemma fallback_single_without_chunks_witness :
  chat_retrieve unit retriever_boom "q" x0 = (Raise "boom", x0) /\
  display_enhanced_fallback_single unit gen_ok "q" retriever_boom "key"
    "beta.pdf" x0
  = (Ok "Error retrieving from beta.pdf", x0).
Proof.
  split; [reflexivity |].
  destruct (fallback_single_without_chunks unit gen_ok "q" retriever_boom
              "key" "beta.pdf" x0 x0) as [Hraise _].
  exact (proj1 (Hraise "boom" eq_refl)).
Defined.

Lemma fallback_single_chunks_witness :
  chat_retrieve unit retriever_bio "q" x0 = (Ok [bio_chunk; bare_chunk], x0) /\
  [bio_chunk; bare_chunk] <> [] /\
  (display_enhanced_fallback_single unit gen_ok "q" retriever_bio "key"
     "alpha.pdf" x0).1
  = Ok "Plants turn light into sugar.".
Proof.
  split; [reflexivity |]. split; [discriminate |].
  destruct (fallback_single_uses_first_four_chunks unit gen_ok "q"
              retriever_bio retriever_bio "key" "alpha.pdf" x0 x0
              [bio_chunk; bare_chunk] [bio_chunk; bare_chunk]
              eq_refl eq_refl ltac:(discriminate) eq_refl)
    as (_ & Hok & _).
  by rewrite (Hok "Plants turn light into sugar." tt eq_refl).
Defined.

Lemma single_fallback_history_witness :
  chat_retrieve unit retriever_nothing "q" x0 = (Ok [], x0) /\
  display_enhanced_fallback unit gen_ok "q" retriever_nothing "key"
    "alpha.pdf" "2025-01-01T00:00:00" (Some []) x0
  = (Ok (Some []), x0).
Proof.
  split; [reflexivity |].
  destruct (single_fallback_history unit gen_ok "q" retriever_nothing "key"
              "alpha.pdf" "2025-01-01T00:00:00" (Some []) x0 x0)
    as (_ & Hempty & _).
  exact (Hempty eq_refl).
Defined.

Lemma coordinator_round_witness :
  registry !! "beta.pdf" = Some retriever_boom /\
  exists s',
    process_document unit gen_ok ascii_upper true registry "q" "key"
      "beta.pdf" [] ([], x0)
    = (Ok [("beta.pdf", "Error retrieving documents: boom")], s').
Proof.
  split; [reflexivity |].
  destruct (coordinator_round_stores_executor_text unit gen_ok ascii_upper
              true registry "q" "key" "beta.pdf" retriever_boom []
              ([], x0) eq_refl)
    as (v & h1 & x1 & Hk & Hround & _).
  assert (Hv : v = "Error retrieving documents: boom").
  { vm_compute in Hk. by injection Hk as <- _. }
  subst v. by eexists.
Defined.

Lemma multi_document_history_witness :
  NoDup targets /\
  (exists d, d ∈ targets /\ is_Some (registry !! d)) /\
  exists results s',
    process_multi_document_query_history unit gen_ok ascii_upper true registry
      "q" targets "key" "2025-01-01T00:00:00" None ([], x0)
    = (Ok (Some [{| entry_query := "q";
                    entry_response := ResponseByDocument results;
                    entry_document :=
                      "Multiple Documents: alpha.pdf, beta.pdf, gamma.pdf";
                    entry_timestamp := "2025-01-01T00:00:00";
                    entry_agent_generated := true;
                    entry_sources_used := None;
                    entry_multi_document := Some true |}]), s').
Proof.
  assert (Hnd : NoDup targets)
    by (apply (bool_decide_unpack (NoDup targets)); vm_compute; exact I).
  assert (Hsome : exists d, d ∈ targets /\ is_Some (registry !! d)).
  { exists "alpha.pdf". split; [by left | by eexists]. }
  split; [exact Hnd |]. split; [exact Hsome |].
  destruct (multi_document_history unit gen_ok ascii_upper true registry
              "q" "key" "2025-01-01T00:00:00" targets None ([], x0) Hnd)
    as [_ Hentry].
  destruct (Hentry Hsome) as (results & s' & _ & Hrun).
  by exists results, s'.
Defined.
